(** * Cybernate AI SDK client: connection lifecycle and event delivery

    A shallow embedding of [src/index.js] (class [CybernateAI]): the client
    session, the request executor [_request], the stream set-up
    [_setupWebSocket] with its socket handlers, the listener table
    ([on], [off], [_dispatchEvent]), the lifecycle operations
    ([connect], [disconnect], [retryWebSocketConnection], [watch],
    [unwatch]), the watcher cache ([getActiveWatchers]), the status
    report ([getConnectionStatus]) and the resource calls that send no
    body ([getWebhooks], [deleteWebhook], [getFileInfo], ...).

    Conventions of the embedding.
    - A method is a computation in the monad [M]: it reads and writes the
      session ([this]), appends to a log of externally visible effects and
      either returns a value or throws an [Error] with a message.
    - An [await] on the outside world is resolved by an explicit oracle
      argument: [FetchOutcome] for [fetch], [IoEnv] for the socket.io
      hand-shake.  Where a claim is about what may happen while a call is
      suspended, the method is split at its [await].
    - The [Map] [activeWatchers] and the response headers are finite
      maps.  The listener table [eventListeners] is a plain object: a
      finite map for its own keys, together with the members every
      object inherits from [Object.prototype].
    - The numbers of the configuration are JS numbers: [||] keeps any
      number but [0] and [NaN], so negative and fractional values are
      represented.
    - Callbacks are function references; [!==] on them is equality of
      references.  What a callback does when called is given by the host
      environment. *)

From Stdlib Require Import ZArith QArith.
From stdpp Require Import base option list strings pretty gmap fin_maps.

Local Open Scope string_scope.

(** ** Host environment and plain data *)

(** A JS number as far as this client looks at it: the result of
    [parseInt(_, 10)] is an integer or [NaN]. *)
Inductive JsNum :=
| NaN
| Num (z : Z).

(** A JS number as a configuration option may carry it: [NaN], an
    infinity, or a finite value, read as a rational (so negative and
    fractional values are numbers like the others). *)
Inductive Number :=
| NumNaN
| NumInf (negative : bool)
| NumFin (q : Q).

(** The number written as an integer literal. *)
Definition int (z : Z) : Number := NumFin (inject_Z z).

(** JS truthiness of a number: [0] and [NaN] are falsy. *)
Definition number_truthy (n : Number) : bool :=
  match n with
  | NumNaN => false
  | NumInf _ => true
  | NumFin q => negb (Qeq_bool q 0)
  end.

(** [count < n] for a counter that starts at 0 and goes up by one. *)
Definition count_below (count : nat) (n : Number) : bool :=
  match n with
  | NumNaN => false
  | NumInf negative => negb negative
  | NumFin q => negb (Qle_bool q (inject_Z (Z.of_nat count)))
  end.

(** A reference to a listener function. *)
Definition CallbackRef := nat.

(** The payload pushed over the stream.  Only [eventType] is inspected by
    the client; the rest of the object is carried along unchanged. *)
Record EventData := mkEventData {
  eventType : option string;
  eventBody : string
}.

(** The host: whether a socket.io client can be found
    ([window.io] in a browser, [require.resolve('socket.io-client')] in
    Node), the builtin [parseInt(_, 10)], the conversion of a number to
    a string made by a template literal, and the body of each listener
    function ([None]: returns normally, [Some e]: throws [e]). *)
Record Env := mkEnv {
  socketIoAvailable : bool;
  parseInt10 : string -> JsNum;
  numberToString : Number -> string;
  callbackBody : CallbackRef -> EventData -> option string
}.

(** JS truthiness of an optional string property: [undefined] and the
    empty string are falsy. *)
Definition truthy (v : option string) : bool :=
  match v with
  | Some s => negb (String.eqb s EmptyString)
  | None => false
  end.

(** [v || d] on an optional string property. *)
Definition or_default (v : option string) (d : string) : string :=
  match v with
  | Some s => if String.eqb s EmptyString then d else s
  | None => d
  end.

(** [hay.includes(needle)] *)
Definition includes (hay needle : string) : bool :=
  match String.index 0 needle hay with
  | Some _ => true
  | None => false
  end.

(** ** The session object *)

Record Config := mkConfig {
  apiKey : string;
  baseUrl : string;
  timeout : Number;
  autoReconnect : bool;
  enableWebSocket : bool;
  reconnectAttempts : Number;
  reconnectDelay : Number
}.

Record RateLimit := mkRateLimit {
  limit : JsNum;
  remaining : JsNum;
  reset : JsNum
}.

(** The socket.io handle held in [this.socket]. *)
Record Socket := mkSocket {
  sock_url : string;
  connected : bool
}.

(** An entry of [activeWatchers]. *)
Record Watcher := mkWatcher {
  w_id : option string;
  w_type : option string;
  w_entityId : option string;
  w_createdAt : string
}.

Record Session := mkSession {
  config : Config;
  eventListeners : gmap string (list CallbackRef);
  activeWatchers : gmap (option string) Watcher;
  socket : option Socket;
  isConnected : bool;
  isConnecting : bool;
  reconnectCount : nat;
  user : option string;
  organization : option string;
  rateLimit : RateLimit
}.

Definition set_eventListeners (v : gmap string (list CallbackRef)) (s : Session) : Session :=
  mkSession (config s) v (activeWatchers s) (socket s) (isConnected s)
            (isConnecting s) (reconnectCount s) (user s) (organization s) (rateLimit s).

Definition set_activeWatchers (v : gmap (option string) Watcher) (s : Session) : Session :=
  mkSession (config s) (eventListeners s) v (socket s) (isConnected s)
            (isConnecting s) (reconnectCount s) (user s) (organization s) (rateLimit s).

Definition set_socket (v : option Socket) (s : Session) : Session :=
  mkSession (config s) (eventListeners s) (activeWatchers s) v (isConnected s)
            (isConnecting s) (reconnectCount s) (user s) (organization s) (rateLimit s).

Definition set_isConnected (v : bool) (s : Session) : Session :=
  mkSession (config s) (eventListeners s) (activeWatchers s) (socket s) v
            (isConnecting s) (reconnectCount s) (user s) (organization s) (rateLimit s).

Definition set_isConnecting (v : bool) (s : Session) : Session :=
  mkSession (config s) (eventListeners s) (activeWatchers s) (socket s) (isConnected s)
            v (reconnectCount s) (user s) (organization s) (rateLimit s).

Definition set_reconnectCount (v : nat) (s : Session) : Session :=
  mkSession (config s) (eventListeners s) (activeWatchers s) (socket s) (isConnected s)
            (isConnecting s) v (user s) (organization s) (rateLimit s).

Definition set_identity (u o : option string) (s : Session) : Session :=
  mkSession (config s) (eventListeners s) (activeWatchers s) (socket s) (isConnected s)
            (isConnecting s) (reconnectCount s) u o (rateLimit s).

Definition set_rateLimit (v : RateLimit) (s : Session) : Session :=
  mkSession (config s) (eventListeners s) (activeWatchers s) (socket s) (isConnected s)
            (isConnecting s) (reconnectCount s) (user s) (organization s) v.

(** [this.socket?.connected], coerced to a boolean. *)
Definition socket_connected (s : Session) : bool :=
  match socket s with
  | Some k => connected k
  | None => false
  end.

(** Constructor options; [None] is a property left out. *)
Record Options := mkOptions {
  o_baseUrl : option string;
  o_timeout : option Number;
  o_autoReconnect : option bool;
  o_enableWebSocket : option bool;
  o_reconnectAttempts : option Number;
  o_reconnectDelay : option Number
}.

Definition no_options : Options := mkOptions None None None None None None.

(** [n || d] on an optional number: [undefined], [0] and [NaN] are
    falsy; any other number, negative or fractional too, is kept. *)
Definition number_or (v : option Number) (d : Number) : Number :=
  match v with
  | Some n => if number_truthy n then n else d
  | None => d
  end.

(** [b !== false] on an optional boolean. *)
Definition not_false (v : option bool) : bool :=
  match v with
  | Some false => false
  | _ => true
  end.

Definition zero_rateLimit : RateLimit := mkRateLimit (Num 0) (Num 0) (Num 0).

(** [new CybernateAI(apiKey, options)]; [inl] is the thrown message. *)
Definition constructor (key : string) (o : Options) : string + Session :=
  if String.eqb key EmptyString then inl "API key is required"
  else inr (mkSession
              (mkConfig key
                        (or_default (o_baseUrl o) "https://api.cybernate.ai/v1")
                        (number_or (o_timeout o) (int 30000))
                        (not_false (o_autoReconnect o))
                        (not_false (o_enableWebSocket o))
                        (number_or (o_reconnectAttempts o) (int 5))
                        (number_or (o_reconnectDelay o) (int 1000)))
              ∅ ∅ None false false 0 None None zero_rateLimit).

(** ** Effects and the method monad *)

Inductive Level := LLog | LWarn | LError.

(** Body of a JSON request as far as the modelled methods build it. *)
Record NotificationSettings := mkNotificationSettings {
  method : option string;
  webhookUrl : option string
}.

Record Payload := mkPayload {
  p_url : option string;
  p_name : option string;
  p_deviceId : option string;
  p_businessId : option string;
  p_detectionSettings : option string;
  p_notificationSettings : option NotificationSettings
}.

(** What the client does to the outside world, in the order it does it. *)
Inductive Effect :=
| EConsole (lvl : Level) (text : string)            (* console.log / warn / error *)
| EFetch (meth url : string) (body : option Payload) (* fetch(url, options) *)
| ESocketOpen (url : string)                         (* io(url, {...}) *)
| ESocketDisconnect (url : string)                   (* socket.disconnect() *)
| ESetTimeout (delay : Number)                            (* setTimeout(reconnect, delay) *)
| EInvoke (cb : CallbackRef) (ev : EventData)        (* callback(eventData) *)
| ESetupAttempt.                                     (* entry of _setupWebSocket *)

Inductive Result (A : Type) :=
| Ok (a : A)
| Throw (msg : string).
Arguments Ok {A} a.
Arguments Throw {A} msg.

Record Run (A : Type) := mkRun {
  final : Session;
  effects : list Effect;
  outcome : Result A
}.
Arguments mkRun {A} final effects outcome.
Arguments final {A} r.
Arguments effects {A} r.
Arguments outcome {A} r.

Definition M (A : Type) : Type := Session -> Run A.

Definition ret {A} (a : A) : M A := fun s => mkRun s [] (Ok a).

Definition throw {A} (msg : string) : M A := fun s => mkRun s [] (Throw msg).

Definition bind {A B} (m : M A) (k : A -> M B) : M B :=
  fun s =>
    let r := m s in
    match outcome r with
    | Ok a => let r' := k a (final r) in
              mkRun (final r') (effects r ++ effects r') (outcome r')
    | Throw e => mkRun (final r) (effects r) (Throw e)
    end.

(** [try { m } catch (error) { h error.message }] *)
Definition try_catch {A} (m : M A) (h : string -> M A) : M A :=
  fun s =>
    let r := m s in
    match outcome r with
    | Ok a => r
    | Throw e => let r' := h e (final r) in
                 mkRun (final r') (effects r ++ effects r') (outcome r')
    end.

Definition get {A} (f : Session -> A) : M A := fun s => mkRun s [] (Ok (f s)).

Definition modify (f : Session -> Session) : M unit := fun s => mkRun (f s) [] (Ok tt).

Definition emit (e : Effect) : M unit := fun s => mkRun s [e] (Ok tt).

Definition console (lvl : Level) (text : string) : M unit := emit (EConsole lvl text).

Declare Scope js_scope.
Delimit Scope js_scope with js.
Notation "'let!' x ':=' m 'in' k" := (bind m (fun x => k))
  (at level 20, x name, m at level 100, k at level 200) : js_scope.
Notation "m ';;;' k" := (bind m (fun _ => k))
  (at level 100, k at level 200, right associativity) : js_scope.
Local Open Scope js_scope.

Definition when (b : bool) (m : M unit) : M unit := if b then m else ret tt.

(** ** Request executor: [_request] *)

(** The properties of a parsed JSON body that the client reads. *)
Record Json := mkJson {
  j_message : option string;
  j_user : option string;
  j_organization : option string;
  j_watcherId : option string;
  j_type : option string;
  j_entityId : option string
}.

Definition json_message (m : string) : Json := mkJson (Some m) None None None None None.

(** A [fetch] response.  [json] is the result of [response.json()]:
    it throws when the body is not JSON. *)
Record Response := mkResponse {
  status : nat;
  statusText : string;
  headers : gmap string string;
  json : Result Json
}.

(** [response.ok] *)
Definition response_ok (r : Response) : bool :=
  (200 <=? status r)%nat && (status r <=? 299)%nat.

(** How the [await fetch(url, options)] of a request ends. *)
Inductive FetchOutcome :=
| FetchRejects (msg : string)
| FetchResponds (r : Response).

(** The three [if (response.headers.has(..))] updates of [this.rateLimit]. *)
Definition track_header (env : Env) (r : Response) (name : string) (old : JsNum) : JsNum :=
  match headers r !! name with
  | Some v => parseInt10 env v
  | None => old
  end.

Definition track_rate_limits (env : Env) (r : Response) (rl : RateLimit) : RateLimit :=
  mkRateLimit (track_header env r "X-RateLimit-Limit" (limit rl))
              (track_header env r "X-RateLimit-Remaining" (remaining rl))
              (track_header env r "X-RateLimit-Reset" (reset rl)).

Definition is_mutating (meth : string) : bool :=
  String.eqb meth "POST" || String.eqb meth "PUT" || String.eqb meth "PATCH".

(** The [throw] chosen by status in the [!response.ok] branch. *)
Definition error_for_status (r : Response) (errorData : Json) : string :=
  if (status r =? 401)%nat then
    "Authentication failed: " +:+ or_default (j_message errorData) "Invalid API key"
  else if (status r =? 403)%nat then
    "Access forbidden: " +:+ or_default (j_message errorData) "Insufficient permissions"
  else if (status r =? 404)%nat then
    "Endpoint not found: " +:+ or_default (j_message errorData) "The requested resource was not found"
  else if (500 <=? status r)%nat then
    "Server error: " +:+ or_default (j_message errorData) "Internal server error"
  else
    or_default (j_message errorData) ("HTTP error " +:+ pretty (status r)).

(** Synchronous prefix of [_request]: build the call and hand it to [fetch]. *)
Definition request_send (meth path : string) (data : option Payload) : M unit :=
  let! base := get (fun s => baseUrl (config s)) in
  console LLog "API Request:" ;;;
  emit (EFetch meth (base +:+ path) (if is_mutating meth then data else None)).

(** The body of the [try] after [await fetch]. *)
Definition request_receive (env : Env) (fo : FetchOutcome) : M Json :=
  match fo with
  | FetchRejects msg => throw msg
  | FetchResponds r =>
      modify (fun s => set_rateLimit (track_rate_limits env r (rateLimit s)) s) ;;;
      if negb (response_ok r) then
        let errorData :=
          match json r with
          | Ok j => j
          | Throw _ => json_message ("HTTP " +:+ pretty (status r) +:+ ": " +:+ statusText r)
          end in
        console LError "API Error Response:" ;;;
        throw (error_for_status r errorData)
      else
        match json r with
        | Throw e => throw e
        | Ok responseData => console LLog "API Response:" ;;; ret responseData
        end
  end.

(** The [catch (error)] of [_request]. *)
Definition request_rethrow (url : string) (msg : string) : M Json :=
  if includes msg "fetch" then
    throw ("Network error: Unable to connect to " +:+ url +:+
           ". Please check your internet connection.")
  else
    throw ("API request failed: " +:+ msg).

(** Continuation of [_request] once [fetch] has settled. *)
Definition request_resume (env : Env) (path : string) (fo : FetchOutcome) : M Json :=
  let! base := get (fun s => baseUrl (config s)) in
  try_catch (request_receive env fo) (request_rethrow (base +:+ path)).

Definition _request (env : Env) (meth path : string) (data : option Payload)
    (fo : FetchOutcome) : M Json :=
  request_send meth path data ;;;
  request_resume env path fo.

(** ** Stream set-up: [_setupWebSocket] and the socket handlers *)

(** [_socketIsEnabled()] *)
Definition _socketIsEnabled (env : Env) : bool := socketIoAvailable env.

(** socket.io sets [connected] on the handle before it emits. *)
Definition mark_connected (b : bool) (s : Session) : Session :=
  match socket s with
  | Some k => set_socket (Some (mkSocket (sock_url k) b)) s
  | None => s
  end.

(** Handler of ['disconnect']. *)
Definition handle_disconnect (reason : string) : M unit :=
  console LLog ("Disconnected from Cybernate events socket: " +:+ reason) ;;;
  let! auto := get (fun s => autoReconnect (config s)) in
  let! delay := get (fun s => reconnectDelay (config s)) in
  when (String.eqb reason "io server disconnect" && auto) (emit (ESetTimeout delay)).

(** [this.socket.disconnect()] on a handle [k]: a handle that was connected
    emits ['disconnect'] with reason ["io client disconnect"]. *)
Definition socket_disconnect (k : Socket) : M unit :=
  emit (ESocketDisconnect (sock_url k)) ;;;
  modify (mark_connected false) ;;;
  when (connected k) (handle_disconnect "io client disconnect").

(** The stream drops the current handle with [reason]. *)
Definition stream_disconnected (reason : string) : M unit :=
  modify (mark_connected false) ;;;
  handle_disconnect reason.

(** What happens on a freshly created handle until the promise of
    [_setupWebSocket] settles: ['connect'] arrives, or the connection
    timer fires first, possibly after some ['connect_error']s. *)
Inductive Handshake :=
| HsAck
| HsTimeout
| HsError (msg : string) (rest : Handshake).

(** How the set-up goes on the side of socket.io. *)
Inductive IoEnv :=
| IoRequireThrows               (* require('socket.io-client') throws *)
| IoInitThrows (msg : string)   (* io(url, {...}) throws *)
| IoOpens (h : Handshake).

Fixpoint handshake (h : Handshake) : M unit :=
  match h with
  | HsAck =>
      modify (mark_connected true) ;;;
      console LLog "Connected to Cybernate events socket" ;;;
      modify (set_reconnectCount 0)
  | HsTimeout =>
      let! k := get socket in
      match k with
      | Some k => if connected k then ret tt
                  else socket_disconnect k ;;; throw "WebSocket connection timeout"
      | None => throw "WebSocket connection timeout"
      end
  | HsError msg rest =>
      console LError ("Socket connection error: " +:+ msg) ;;;
      let! c := get reconnectCount in
      if (c =? 0)%nat then throw ("WebSocket connection failed: " +:+ msg)
      else handshake rest
  end.

Definition _setupWebSocket (env : Env) (io : IoEnv) : M unit :=
  emit ESetupAttempt ;;;
  if negb (_socketIsEnabled env) then throw "WebSocket not enabled or supported"
  else
    match io with
    | IoRequireThrows =>
        throw "socket.io-client package not found. Install with: npm install socket.io-client"
    | IoInitThrows msg =>
        let! old := get socket in
        match old with
        | Some k => socket_disconnect k ;;; modify (set_socket None)
        | None => ret tt
        end ;;;
        throw ("Failed to initialize WebSocket: " +:+ msg)
    | IoOpens h =>
        let! old := get socket in
        match old with
        | Some k => socket_disconnect k ;;; modify (set_socket None)
        | None => ret tt
        end ;;;
        let! base := get (fun s => baseUrl (config s)) in
        emit (ESocketOpen (base +:+ "/events")) ;;;
        modify (set_socket (Some (mkSocket (base +:+ "/events") false))) ;;;
        handshake h
    end.


(** ** Listener table: [on], [off], [_dispatchEvent] *)

Fixpoint forEach {A} (f : A -> M unit) (l : list A) : M unit :=
  match l with
  | [] => ret tt
  | x :: l' => f x ;;; forEach f l'
  end.

(** [try { callback(eventData) } catch (error) { console.error(label, error) }] *)
Definition call_listener (env : Env) (label : string) (ev : EventData)
    (callback : CallbackRef) : M unit :=
  emit (EInvoke callback ev) ;;;
  match callbackBody env callback ev with
  | None => ret tt
  | Some _ => console LError label
  end.

(** The label ['Error in "all" event listener:']. *)
Definition dquote : string := String (Ascii.ascii_of_nat 34) EmptyString.

Definition all_listener_label : string :=
  "Error in " +:+ dquote +:+ "all" +:+ dquote +:+ " event listener:".

(** The listener table is the object literal [{}]: besides its own keys
    it answers for the members it inherits from [Object.prototype]. *)
Definition object_prototype_members : list string :=
  ["constructor"; "__defineGetter__"; "__defineSetter__"; "hasOwnProperty";
   "__lookupGetter__"; "__lookupSetter__"; "isPrototypeOf"; "propertyIsEnumerable";
   "toString"; "valueOf"; "__proto__"; "toLocaleString"].

Definition inherited (name : string) : bool :=
  existsb (String.eqb name) object_prototype_members.

(** What [this.eventListeners[name]] evaluates to: the array of an own
    key; for a name that is no own key, the inherited member (a function,
    or [Object.prototype] itself: truthy, and without [push], [filter] or
    [forEach]) or [undefined]. *)
Inductive Slot :=
| Own (cbs : list CallbackRef)
| Inherited
| Absent.

Definition slot (table : gmap string (list CallbackRef)) (name : string) : Slot :=
  match table !! name with
  | Some cbs => Own cbs
  | None => if inherited name then Inherited else Absent
  end.

Definition _dispatchEvent (env : Env) (eventData : EventData) : M unit :=
  let evType := or_default (eventType eventData) "detection" in
  let! specific := get (fun s => slot (eventListeners s) evType) in
  match specific with
  | Own cbs =>
      forEach (call_listener env ("Error in event listener for " +:+ evType +:+ ":") eventData) cbs
  | Inherited => throw "this.eventListeners[eventType].forEach is not a function"
  | Absent => ret tt
  end ;;;
  let! every := get (fun s => slot (eventListeners s) "all") in
  match every with
  | Own cbs => forEach (call_listener env all_listener_label eventData) cbs
  | Inherited => throw "this.eventListeners.all.forEach is not a function"
  | Absent => ret tt
  end.

(** [on(event, callback)].  [callback = None] stands for an argument that
    is not a function.  The set-up started for a session whose stream is
    down is not awaited by [on]; it is run here to its end, with the
    [.catch] that only warns. *)
Definition on (env : Env) (io : IoEnv) (event : string) (callback : option CallbackRef) : M unit :=
  match callback with
  | None => throw "Callback must be a function"
  | Some cb =>
      modify (fun s =>
        match slot (eventListeners s) event with
        | Absent => set_eventListeners (<[event := []]> (eventListeners s)) s
        | _ => s
        end) ;;;
      let! target := get (fun s => slot (eventListeners s) event) in
      match target with
      | Own cbs =>
          modify (fun s =>
            set_eventListeners (<[event := (cbs ++ [cb])%list]> (eventListeners s)) s)
      | _ => throw "this.eventListeners[event].push is not a function"
      end ;;;
      let! enabled := get (fun s => enableWebSocket (config s)) in
      let! up := get socket_connected in
      when (enabled && _socketIsEnabled env && negb up)
        (try_catch (_setupWebSocket env io)
           (fun e => console LWarn ("Failed to setup WebSocket for event listener: " +:+ e)))
  end.

(** [off(event, callback)]; [callback = None] is the argument left out. *)
Definition off (event : string) (callback : option CallbackRef) : M unit :=
  let! registered := get (fun s => slot (eventListeners s) event) in
  match registered with
  | Absent => ret tt
  | _ =>
      match callback with
      | None => modify (fun s => set_eventListeners (delete event (eventListeners s)) s)
      | Some callback =>
          match registered with
          | Own cbs =>
              modify (fun s =>
                set_eventListeners
                  (<[event := filter (fun cb => cb ≠ callback) cbs]> (eventListeners s)) s)
          | _ => throw "this.eventListeners[event].filter is not a function"
          end
      end
  end.

(** Handlers of the stream messages ['event'], ['notification'], ['system']. *)
Definition on_event (env : Env) (eventData : EventData) : M unit :=
  _dispatchEvent env eventData.

Definition on_notification (env : Env) (notificationData : EventData) : M unit :=
  _dispatchEvent env (mkEventData (Some "notification") (eventBody notificationData)).

Definition on_system (env : Env) (systemData : EventData) : M unit :=
  _dispatchEvent env (mkEventData (Some "system") (eventBody systemData)).

(** ** Lifecycle: [connect], [disconnect], [retryWebSocketConnection] *)

Record ConnectResult := mkConnectResult {
  r_connected : bool;
  r_user : option string;
  r_organization : option string;
  r_websocketEnabled : bool
}.

(** [_ensureConnected()] *)
Definition _ensureConnected : M unit :=
  let! c := get isConnected in
  if c then ret tt else throw "Not connected to Cybernate API. Call connect() first.".

(** The [catch (error)] of [connect]. *)
Definition connect_failed {A} (e : string) : M A :=
  modify (set_isConnected false) ;;;
  modify (set_isConnecting false) ;;;
  throw ("Failed to connect to Cybernate: " +:+ e).

(** What [connect] does with the validated response. *)
Definition connect_validated (env : Env) (io : IoEnv) (response : Json) : M ConnectResult :=
  modify (set_identity (j_user response) (j_organization response)) ;;;
  let! enabled := get (fun s => enableWebSocket (config s)) in
  when (enabled && _socketIsEnabled env)
    (try_catch (_setupWebSocket env io)
       (fun e => console LWarn
          ("WebSocket connection failed, falling back to HTTP-only mode: " +:+ e))) ;;;
  modify (set_isConnected true) ;;;
  modify (set_isConnecting false) ;;;
  let! s := get id in
  ret (mkConnectResult true (user s) (organization s) (socket_connected s)).

Definition connect (env : Env) (fo : FetchOutcome) (io : IoEnv) : M ConnectResult :=
  let! busy := get isConnecting in
  if busy then throw "Connection already in progress"
  else
    modify (set_isConnecting true) ;;;
    try_catch
      (let! response := _request env "GET" "/auth/validate" None fo in
       connect_validated env io response)
      connect_failed.

(** [connect] cut at its first [await]: [connect_begin] runs up to the
    call of [fetch], [connect_resume] from the moment [fetch] settles. *)
Definition connect_begin : M unit :=
  let! busy := get isConnecting in
  if busy then throw "Connection already in progress"
  else
    modify (set_isConnecting true) ;;;
    request_send "GET" "/auth/validate" None.

Definition connect_resume (env : Env) (fo : FetchOutcome) (io : IoEnv) : M ConnectResult :=
  try_catch
    (let! response := request_resume env "/auth/validate" fo in
     connect_validated env io response)
    connect_failed.

Definition retryWebSocketConnection (env : Env) (io : IoEnv) : M bool :=
  let! enabled := get (fun s => enableWebSocket (config s)) in
  if negb enabled || negb (_socketIsEnabled env) then
    throw "WebSocket not enabled or available"
  else
    let! up := get socket_connected in
    if up then ret true
    else
      try_catch (_setupWebSocket env io ;;; ret true)
        (fun e => console LError ("Manual WebSocket retry failed: " +:+ e) ;;; ret false).

Definition disconnect : M unit :=
  let! k := get socket in
  match k with
  | Some k => socket_disconnect k ;;; modify (set_socket None)
  | None => ret tt
  end ;;;
  modify (set_isConnected false) ;;;
  modify (set_isConnecting false) ;;;
  modify (set_reconnectCount 0) ;;;
  modify (set_activeWatchers ∅).

(** ** Watch subscriptions: [watch], [unwatch] *)

Record WatchOptions := mkWatchOptions {
  streamUrl : option string;
  deviceId : option string;
  businessId : option string;
  name : option string;
  detectionSettings : option string;
  notificationSettings : option NotificationSettings
}.

(** The [if / else if / else] that picks the endpoint and starts the
    payload; [now] is [new Date().toISOString()]. *)
Definition watch_target (now : string) (options : WatchOptions) : string * Payload :=
  let ds := Some (or_default (detectionSettings options) "{}") in
  if truthy (streamUrl options) then
    ("/streams/watch",
     mkPayload (streamUrl options) (Some (or_default (name options) ("Stream " +:+ now)))
               None None ds None)
  else if truthy (deviceId options) then
    ("/devices/watch", mkPayload None None (deviceId options) None ds None)
  else
    ("/businesses/watch", mkPayload None None None (businessId options) ds None).

(** [options.notificationSettings || { method: socket?.connected ? 'socket' : 'webhook' }] *)
Definition watch_notification (options : WatchOptions) (up : bool) : NotificationSettings :=
  match notificationSettings options with
  | Some ns => ns
  | None => mkNotificationSettings (Some (if up then "socket" else "webhook")) None
  end.

Definition with_notification (p : Payload) (ns : NotificationSettings) : Payload :=
  mkPayload (p_url p) (p_name p) (p_deviceId p) (p_businessId p) (p_detectionSettings p) (Some ns).

Definition is_webhook (ns : NotificationSettings) : bool :=
  match method ns with
  | Some m => String.eqb m "webhook"
  | None => false
  end.

Definition watch (env : Env) (now : string) (options : WatchOptions) (fo : FetchOutcome) : M Json :=
  _ensureConnected ;;;
  if negb (truthy (streamUrl options)) && negb (truthy (deviceId options))
     && negb (truthy (businessId options)) then
    throw "You must specify either streamUrl, deviceId, or businessId"
  else
    let (endpoint, payload0) := watch_target now options in
    let! up := get socket_connected in
    let ns := watch_notification options up in
    let payload := with_notification payload0 ns in
    if is_webhook ns && negb (truthy (webhookUrl ns)) then
      throw "webhookUrl is required for webhook notifications"
    else
      console LLog "Watch request:" ;;;
      let! response := _request env "POST" endpoint (Some payload) fo in
      modify (fun s =>
        set_activeWatchers
          (<[j_watcherId response :=
               mkWatcher (j_watcherId response) (j_type response) (j_entityId response) now]>
             (activeWatchers s)) s) ;;;
      ret response.

Definition unwatch (env : Env) (watcherId : option string) (fo : FetchOutcome) : M Json :=
  _ensureConnected ;;;
  match watcherId with
  | Some id_ =>
      if String.eqb id_ EmptyString then throw "watcherId is required"
      else
        let! response := _request env "DELETE" ("/events/watch/" +:+ id_) None fo in
        modify (fun s => set_activeWatchers (delete (Some id_) (activeWatchers s)) s) ;;;
        ret response
  | None => throw "watcherId is required"
  end.

(** ** Cached watchers and connection status *)

(** [getActiveWatchers()].  [watchers] reads [response.watchers] off the
    parsed body: [None] when the property is not iterable, in which case
    the [for ... of] throws a [TypeError], the cache being cleared
    already. *)
Definition getActiveWatchers (env : Env) (watchers : Json -> option (list Watcher))
    (fo : FetchOutcome) : M (list Watcher) :=
  _ensureConnected ;;;
  let! response := _request env "GET" "/events/watchers" None fo in
  modify (set_activeWatchers ∅) ;;;
  match watchers response with
  | Some ws =>
      forEach (fun w => modify (fun s =>
                 set_activeWatchers (<[w_id w := w]> (activeWatchers s)) s)) ws ;;;
      ret ws
  | None => throw "response.watchers is not iterable"
  end.

Record ConnectionStatus := mkConnectionStatus {
  st_isConnected : bool;
  st_websocketConnected : bool;
  st_websocketEnabled : bool;
  st_reconnectCount : nat;
  st_activeWatchers : nat
}.

(** [getConnectionStatus()] *)
Definition getConnectionStatus : M ConnectionStatus :=
  let! s := get id in
  ret (mkConnectionStatus (isConnected s) (socket_connected s) (enableWebSocket (config s))
                          (reconnectCount s) (size (activeWatchers s))).

(** ** Resource calls without a request body *)

(** An argument spliced into a template literal; one left out reads
    ["undefined"]. *)
Definition template (v : option string) : string := default "undefined" v.

Definition getWebhooks (env : Env) (fo : FetchOutcome) : M Json :=
  _ensureConnected ;;; _request env "GET" "/webhooks" None fo.

Definition deleteWebhook (env : Env) (webhookId : option string) (fo : FetchOutcome) : M Json :=
  _ensureConnected ;;; _request env "DELETE" ("/webhooks/" +:+ template webhookId) None fo.

Definition getFileInfo (env : Env) (fileId : option string) (fo : FetchOutcome) : M Json :=
  _ensureConnected ;;; _request env "GET" ("/storage/files/" +:+ template fileId) None fo.

Definition deleteFile (env : Env) (fileId : option string) (fo : FetchOutcome) : M Json :=
  _ensureConnected ;;; _request env "DELETE" ("/storage/files/" +:+ template fileId) None fo.

Definition getDashboardAnalytics (env : Env) (businessId_ : option string)
    (fo : FetchOutcome) : M Json :=
  _ensureConnected ;;;
  _request env "GET" ("/analytics/dashboard/" +:+ template businessId_) None fo.

Definition getIntegration (env : Env) (integrationId : option string)
    (fo : FetchOutcome) : M Json :=
  _ensureConnected ;;; _request env "GET" ("/integrations/" +:+ template integrationId) None fo.

Definition deleteIntegration (env : Env) (integrationId : option string)
    (fo : FetchOutcome) : M Json :=
  _ensureConnected ;;;
  _request env "DELETE" ("/integrations/" +:+ template integrationId) None fo.

Definition testIntegration (env : Env) (integrationId : option string)
    (fo : FetchOutcome) : M Json :=
  _ensureConnected ;;;
  _request env "POST" ("/integrations/" +:+ template integrationId +:+ "/test") None fo.

Definition markNotificationAsRead (env : Env) (notificationId : option string)
    (fo : FetchOutcome) : M Json :=
  _ensureConnected ;;;
  _request env "POST" ("/notifications/" +:+ template notificationId +:+ "/read") None fo.

Definition markAllNotificationsAsRead (env : Env) (fo : FetchOutcome) : M Json :=
  _ensureConnected ;;; _request env "POST" "/notifications/read-all" None fo.

Definition getNotificationPreferences (env : Env) (fo : FetchOutcome) : M Json :=
  _ensureConnected ;;; _request env "GET" "/notifications/preferences" None fo.

(** The calls above, by name. *)
Inductive PlainCall :=
| GetWebhooks
| DeleteWebhook (webhookId : option string)
| GetFileInfo (fileId : option string)
| DeleteFile (fileId : option string)
| GetDashboardAnalytics (businessId_ : option string)
| GetIntegration (integrationId : option string)
| DeleteIntegration (integrationId : option string)
| TestIntegration (integrationId : option string)
| MarkNotificationAsRead (notificationId : option string)
| MarkAllNotificationsAsRead
| GetNotificationPreferences.

Definition plain_call (env : Env) (c : PlainCall) : FetchOutcome -> M Json :=
  match c with
  | GetWebhooks => getWebhooks env
  | DeleteWebhook i => deleteWebhook env i
  | GetFileInfo i => getFileInfo env i
  | DeleteFile i => deleteFile env i
  | GetDashboardAnalytics i => getDashboardAnalytics env i
  | GetIntegration i => getIntegration env i
  | DeleteIntegration i => deleteIntegration env i
  | TestIntegration i => testIntegration env i
  | MarkNotificationAsRead i => markNotificationAsRead env i
  | MarkAllNotificationsAsRead => markAllNotificationsAsRead env
  | GetNotificationPreferences => getNotificationPreferences env
  end.

(** ** A sample host and sample sessions

    Concrete values on which the model is run. *)

(** A [parseInt(_, 10)] for the sample host: the leading decimal digits,
    [NaN] when there is none. *)
Fixpoint leading_digits (s : string) (acc : option Z) : option Z :=
  match s with
  | String c rest =>
      let n := Ascii.nat_of_ascii c in
      if (48 <=? n)%nat && (n <=? 57)%nat
      then leading_digits rest (Some (default 0 acc * 10 + Z.of_nat (n - 48))%Z)
      else acc
  | EmptyString => acc
  end.

Definition sample_parseInt (s : string) : JsNum :=
  match leading_digits s None with
  | Some z => Num z
  | None => NaN
  end.

(** The conversion to a string, for the sample host, of the numbers that
    are integers; the others are not printed by the samples. *)
Definition sample_numberToString (n : Number) : string :=
  match n with
  | NumNaN => "NaN"
  | NumInf negative => if negative then "-Infinity" else "Infinity"
  | NumFin q => pretty (Qnum q / Zpos (Qden q))%Z
  end.

(** A host with socket.io at hand, in which the listeners with an odd
    reference throw. *)
Definition sample_env : Env :=
  mkEnv true sample_parseInt sample_numberToString
        (fun cb _ => if Nat.even cb then None else Some "boom").

Definition sample_config : Config :=
  mkConfig "sk_test" "https://api.cybernate.ai/v1" (int 30000) true true (int 5) (int 1000).

(** The session [new CybernateAI('sk_test')]. *)
Definition sample_session : Session :=
  mkSession sample_config ∅ ∅ None false false 0 None None zero_rateLimit.

(** The sample session connected, with the stream up. *)
Definition streaming_session : Session :=
  set_socket (Some (mkSocket "https://api.cybernate.ai/v1/events" true))
    (set_isConnected true sample_session).

(** * Verification *)

(** ** Reasoning about computations in [M] *)

(** [m] leaves the component [f] of the session as it was. *)
Definition preserves {A B} (f : Session -> B) (m : M A) : Prop :=
  forall s, f (final (m s)) = f s.

Section Frame.
Context {B : Type} (f : Session -> B).

Lemma preserves_ret {A} (a : A) : preserves f (ret a).
Proof. intros s; reflexivity. Qed.

Lemma preserves_throw {A} (e : string) : preserves f (@throw A e).
Proof. intros s; reflexivity. Qed.

Lemma preserves_get {A} (g : Session -> A) : preserves f (get g).
Proof. intros s; reflexivity. Qed.

Lemma preserves_emit (e : Effect) : preserves f (emit e).
Proof. intros s; reflexivity. Qed.

Lemma preserves_console lvl text : preserves f (console lvl text).
Proof. intros s; reflexivity. Qed.

Lemma preserves_modify (g : Session -> Session) :
  (forall s, f (g s) = f s) -> preserves f (modify g).
Proof. intros H s; apply H. Qed.

Lemma preserves_bind {A C} (m : M A) (k : A -> M C) :
  preserves f m -> (forall a, preserves f (k a)) -> preserves f (bind m k).
Proof.
  intros Hm Hk s. unfold bind.
  destruct (outcome (m s)) as [a|e] eqn:E; simpl.
  - rewrite Hk. apply Hm.
  - apply Hm.
Qed.

Lemma preserves_try_catch {A} (m : M A) (h : string -> M A) :
  preserves f m -> (forall e, preserves f (h e)) -> preserves f (try_catch m h).
Proof.
  intros Hm Hh s. unfold try_catch.
  destruct (outcome (m s)) as [a|e] eqn:E; simpl.
  - apply Hm.
  - rewrite Hh. apply Hm.
Qed.

Lemma preserves_when (b : bool) (m : M unit) :
  preserves f m -> preserves f (when b m).
Proof. intros Hm. destruct b; simpl; [exact Hm | apply preserves_ret]. Qed.

Lemma preserves_forEach {A} (g : A -> M unit) (l : list A) :
  (forall a, preserves f (g a)) -> preserves f (forEach g l).
Proof.
  intros Hg. induction l as [|x l IH]; simpl.
  - apply preserves_ret.
  - apply preserves_bind; [apply Hg | intros _; exact IH].
Qed.
End Frame.



Lemma effects_bind_modify {A} (g : Session -> Session) (k : unit -> M A) s :
  effects (bind (modify g) k s) = effects (k tt (g s)).
Proof. reflexivity. Qed.



Lemma effects_bind_get {A C} (g : Session -> C) (k : C -> M A) s :
  effects (bind (get g) k s) = effects (k (g s) s).
Proof. reflexivity. Qed.

Lemma run_eta {A} (r : Run A) : mkRun (final r) (effects r) (outcome r) = r.
Proof. destruct r; reflexivity. Qed.

Lemma bind_get {A C} (g : Session -> A) (k : A -> M C) s :
  bind (get g) k s = k (g s) s.
Proof. unfold bind, get. cbn [final outcome effects app]. apply run_eta. Qed.

Lemma bind_modify {C} (g : Session -> Session) (k : unit -> M C) s :
  bind (modify g) k s = k tt (g s).
Proof. unfold bind, modify. cbn [final outcome effects app]. apply run_eta. Qed.

Lemma bind_emit {C} (e : Effect) (k : unit -> M C) s :
  bind (emit e) k s = mkRun (final (k tt s)) (e :: effects (k tt s)) (outcome (k tt s)).
Proof. reflexivity. Qed.

Lemma bind_run {A C} (m : M A) (k : A -> M C) s s' l a :
  m s = mkRun s' l (Ok a) ->
  bind m k s = mkRun (final (k a s')) (l ++ effects (k a s'))%list (outcome (k a s')).
Proof. intros H. unfold bind. rewrite H. reflexivity. Qed.

Lemma bind_ok {A C} (m : M A) (k : A -> M C) s a :
  outcome (m s) = Ok a ->
  bind m k s = mkRun (final (k a (final (m s))))
                     (effects (m s) ++ effects (k a (final (m s))))%list
                     (outcome (k a (final (m s)))).
Proof. intros H. unfold bind. rewrite H. reflexivity. Qed.

Lemma bind_throw {A C} (m : M A) (k : A -> M C) s e :
  outcome (m s) = Throw e ->
  bind m k s = mkRun (final (m s)) (effects (m s)) (Throw e).
Proof. intros H. unfold bind. rewrite H. reflexivity. Qed.

Lemma try_catch_throw {A} (m : M A) (h : string -> M A) s e :
  outcome (m s) = Throw e ->
  try_catch m h s = mkRun (final (h e (final (m s))))
                          (effects (m s) ++ effects (h e (final (m s))))%list
                          (outcome (h e (final (m s)))).
Proof. intros H. unfold try_catch. rewrite H. reflexivity. Qed.

Lemma try_catch_ok {A} (m : M A) (h : string -> M A) s a :
  outcome (m s) = Ok a -> try_catch m h s = m s.
Proof. intros H. unfold try_catch. rewrite H. reflexivity. Qed.

Create HintDb frame discriminated.
#[export] Hint Resolve preserves_ret preserves_throw preserves_get preserves_emit
  preserves_console preserves_bind preserves_try_catch preserves_when
  preserves_forEach : frame.

(** Steps a goal about a composite computation down to its parts. *)
Ltac frame_step :=
  lazymatch goal with
  | |- preserves _ (ret _) => apply preserves_ret
  | |- preserves _ (throw _) => apply preserves_throw
  | |- preserves _ (get _) => apply preserves_get
  | |- preserves _ (emit _) => apply preserves_emit
  | |- preserves _ (console _ _) => apply preserves_console
  | |- preserves _ (modify _) => apply preserves_modify; intro; try reflexivity
  | |- preserves _ (bind _ _) => apply preserves_bind; [| intro]
  | |- preserves _ (try_catch _ _) => apply preserves_try_catch; [| intro]
  | |- preserves _ (when _ _) => apply preserves_when
  | |- preserves _ (forEach _ _) => apply preserves_forEach; intro
  | |- preserves _ (match ?x with _ => _ end) => destruct x
  end.

Ltac frame := repeat frame_step.

(** [m] never throws. *)
Definition returns {A} (m : M A) : Prop :=
  forall s, exists a, outcome (m s) = Ok a.

Lemma returns_ret {A} (a : A) : returns (ret a).
Proof. intros s; eexists; reflexivity. Qed.

Lemma returns_get {A} (g : Session -> A) : returns (get g).
Proof. intros s; eexists; reflexivity. Qed.

Lemma returns_modify g : returns (modify g).
Proof. intros s; eexists; reflexivity. Qed.

Lemma returns_emit e : returns (emit e).
Proof. intros s; eexists; reflexivity. Qed.

Lemma returns_console lvl text : returns (console lvl text).
Proof. intros s; eexists; reflexivity. Qed.

Lemma returns_bind {A C} (m : M A) (k : A -> M C) :
  returns m -> (forall a, returns (k a)) -> returns (bind m k).
Proof.
  intros Hm Hk s. unfold bind. destruct (Hm s) as [a ->]. simpl. apply Hk.
Qed.

Lemma returns_try_catch {A} (m : M A) (h : string -> M A) :
  (forall e, returns (h e)) -> returns (try_catch m h).
Proof.
  intros Hh s. unfold try_catch.
  destruct (outcome (m s)) as [a|e] eqn:E.
  - exists a. exact E.
  - simpl. apply Hh.
Qed.

Lemma returns_when b (m : M unit) : returns m -> returns (when b m).
Proof. intros Hm. destruct b; simpl; [exact Hm | apply returns_ret]. Qed.

Lemma returns_forEach {A} (g : A -> M unit) (l : list A) :
  (forall a, returns (g a)) -> returns (forEach g l).
Proof.
  intros Hg. induction l as [|x l IH]; simpl.
  - apply returns_ret.
  - apply returns_bind; [apply Hg | intros _; exact IH].
Qed.

Lemma returns_unit (m : M unit) s : returns m -> outcome (m s) = Ok tt.
Proof. intros H. destruct (H s) as [[] E]. exact E. Qed.

Ltac returns_step :=
  lazymatch goal with
  | |- returns (ret _) => apply returns_ret
  | |- returns (get _) => apply returns_get
  | |- returns (emit _) => apply returns_emit
  | |- returns (console _ _) => apply returns_console
  | |- returns (modify _) => apply returns_modify
  | |- returns (bind _ _) => apply returns_bind; [| intro]
  | |- returns (try_catch _ _) => apply returns_try_catch; intro
  | |- returns (when _ _) => apply returns_when
  | |- returns (forEach _ _) => apply returns_forEach; intro
  | |- returns (match ?x with _ => _ end) => destruct x
  end.

Ltac returns_all := repeat returns_step.

Lemma mark_connected_listeners b s :
  eventListeners (mark_connected b s) = eventListeners s.
Proof. unfold mark_connected. destruct (socket s); reflexivity. Qed.

Lemma mark_connected_frame b s :
  (config (mark_connected b s), activeWatchers (mark_connected b s),
   isConnected (mark_connected b s), isConnecting (mark_connected b s),
   reconnectCount (mark_connected b s), rateLimit (mark_connected b s))
  = (config s, activeWatchers s, isConnected s, isConnecting s, reconnectCount s, rateLimit s).
Proof. unfold mark_connected. destruct (socket s); reflexivity. Qed.

Lemma handle_disconnect_listeners reason : preserves eventListeners (handle_disconnect reason).
Proof. unfold handle_disconnect. frame. Qed.

Lemma socket_disconnect_listeners k : preserves eventListeners (socket_disconnect k).
Proof.
  unfold socket_disconnect. frame;
    auto using mark_connected_listeners, handle_disconnect_listeners.
Qed.

Lemma handshake_listeners h : preserves eventListeners (handshake h).
Proof.
  induction h as [| |msg rest IH]; simpl; frame;
    auto using mark_connected_listeners, socket_disconnect_listeners.
Qed.

Lemma _setupWebSocket_listeners env io : preserves eventListeners (_setupWebSocket env io).
Proof.
  unfold _setupWebSocket. frame;
    auto using socket_disconnect_listeners, handshake_listeners.
Qed.

(** ** Listener table *)

(** The callbacks registered under [tag], in registration order; a tag
    that is not a key has none. *)
Definition listeners_of (s : Session) (tag : string) : list CallbackRef :=
  default [] (eventListeners s !! tag).


Lemma slot_insert_eq table tag cbs : slot (<[tag := cbs]> table) tag = Own cbs.
Proof. unfold slot. rewrite lookup_insert_eq. reflexivity. Qed.

Lemma slot_own table tag cbs : slot table tag = Own cbs <-> table !! tag = Some cbs.
Proof.
  unfold slot. destruct (table !! tag) as [l|]; [|destruct (inherited tag)];
    split; congruence.
Qed.

Lemma slot_unowned table tag :
  (forall cbs, slot table tag <> Own cbs) -> table !! tag = None.
Proof.
  unfold slot. destruct (table !! tag) as [l|]; [|reflexivity].
  intros H. destruct (H l). reflexivity.
Qed.

Lemma slot_plain table tag : inherited tag = false -> slot table tag <> Inherited.
Proof. unfold slot. intros ->. destruct (table !! tag); discriminate. Qed.

(** What follows the registration in [on]: the lazy set-up. *)
Lemma on_lazy_listeners env io :
  preserves eventListeners
    (let! enabled := get (fun s => enableWebSocket (config s)) in
     let! up := get socket_connected in
     when (enabled && _socketIsEnabled env && negb up)
       (try_catch (_setupWebSocket env io)
          (fun e => console LWarn ("Failed to setup WebSocket for event listener: " +:+ e)))).
Proof. frame. apply _setupWebSocket_listeners. Qed.

Lemma on_lazy_returns env io :
  returns
    (let! enabled := get (fun s => enableWebSocket (config s)) in
     let! up := get socket_connected in
     when (enabled && _socketIsEnabled env && negb up)
       (try_catch (_setupWebSocket env io)
          (fun e => console LWarn ("Failed to setup WebSocket for event listener: " +:+ e)))).
Proof. returns_all. Qed.

(** [on] in terms of the lazy set-up, on a tag that is an own key or
    stands for nothing. *)
Lemma on_run env io tag cb s :
  slot (eventListeners s) tag <> Inherited ->
  on env io tag (Some cb) s
  = (let! enabled := get (fun s => enableWebSocket (config s)) in
     let! up := get socket_connected in
     when (enabled && _socketIsEnabled env && negb up)
       (try_catch (_setupWebSocket env io)
          (fun e => console LWarn ("Failed to setup WebSocket for event listener: " +:+ e))))
      (set_eventListeners (<[tag := (listeners_of s tag ++ [cb])%list]> (eventListeners s)) s).
Proof.
  intros H. unfold on, listeners_of. rewrite bind_modify. cbv beta.
  destruct (slot (eventListeners s) tag) as [cbs| |] eqn:E; [|congruence|].
  - rewrite bind_get, E. apply slot_own in E. rewrite E.
    rewrite bind_modify. reflexivity.
  - assert (El : eventListeners s !! tag = None)
      by (apply slot_unowned; intros cbs; rewrite E; discriminate).
    rewrite bind_get. cbn [eventListeners set_eventListeners]. rewrite slot_insert_eq, El.
    rewrite bind_modify. cbn [eventListeners set_eventListeners default from_option id app].
    rewrite insert_insert_eq.
    destruct s; reflexivity.
Qed.

Lemma on_eventListeners env io tag cb s :
  slot (eventListeners s) tag <> Inherited ->
  eventListeners (final (on env io tag (Some cb) s))
  = <[tag := (listeners_of s tag ++ [cb])%list]> (eventListeners s).
Proof.
  intros H. rewrite (on_run env io tag cb s H), on_lazy_listeners. reflexivity.
Qed.

Lemma on_returns env io tag cb s :
  slot (eventListeners s) tag <> Inherited ->
  outcome (on env io tag (Some cb) s) = Ok tt.
Proof.
  intros H. rewrite (on_run env io tag cb s H). apply returns_unit, on_lazy_returns.
Qed.

(** On a name that only [Object.prototype] answers for, [on] finds a
    member that has no [push]. *)
Lemma on_inherited env io tag cb s :
  slot (eventListeners s) tag = Inherited ->
  on env io tag (Some cb) s
  = mkRun s [] (Throw "this.eventListeners[event].push is not a function").
Proof.
  intros H. unfold on. rewrite bind_modify. cbv beta. rewrite H.
  rewrite bind_get, H. reflexivity.
Qed.


Lemma off_run tag callback s :
  off tag callback s
  = match slot (eventListeners s) tag, callback with
    | Absent, _ => mkRun s [] (Ok tt)
    | Own cbs, Some c =>
        mkRun (set_eventListeners
                 (<[tag := filter (fun cb => cb ≠ c) cbs]> (eventListeners s)) s) [] (Ok tt)
    | Inherited, Some _ =>
        mkRun s [] (Throw "this.eventListeners[event].filter is not a function")
    | _, None => mkRun (set_eventListeners (delete tag (eventListeners s)) s) [] (Ok tt)
    end.
Proof.
  unfold off. rewrite bind_get.
  destruct (slot (eventListeners s) tag); destruct callback; reflexivity.
Qed.



(** ** Event delivery *)

(** The listener calls of an effect log, in the order they were made. *)
Definition invocations (l : list Effect) : list (CallbackRef * EventData) :=
  omap (fun e => match e with EInvoke cb ev => Some (cb, ev) | _ => None end) l.


Lemma invocations_app l1 l2 :
  invocations (l1 ++ l2)%list = (invocations l1 ++ invocations l2)%list.
Proof. apply omap_app. Qed.

Lemma forEach_call_listener env label ev cbs s :
  final (forEach (call_listener env label ev) cbs s) = s
  /\ outcome (forEach (call_listener env label ev) cbs s) = Ok tt
  /\ invocations (effects (forEach (call_listener env label ev) cbs s))
     = map (fun cb => (cb, ev)) cbs.
Proof.
  induction cbs as [|cb cbs IH]; [repeat split|].
  destruct IH as (IHf & IHo & IHe).
  assert (Hc : final (call_listener env label ev cb s) = s
               /\ outcome (call_listener env label ev cb s) = Ok tt
               /\ invocations (effects (call_listener env label ev cb s)) = [(cb, ev)]).
  { unfold call_listener. destruct (callbackBody env cb ev); repeat split. }
  destruct Hc as (Hf & Ho & He).
  cbn [forEach]. unfold bind. rewrite Ho, Hf. cbn [final outcome effects].
  rewrite invocations_app, He, IHe. repeat split; assumption.
Qed.

(** One of the two passes of [_dispatchEvent], over a tag that is an own
    key or that nothing answers for. *)
Lemma listeners_forEach env label msg ev s tag :
  slot (eventListeners s) tag <> Inherited ->
  let m := match slot (eventListeners s) tag with
           | Own cbs => forEach (call_listener env label ev) cbs
           | Inherited => throw msg
           | Absent => ret tt
           end in
  final (m s) = s /\ outcome (m s) = Ok tt
  /\ invocations (effects (m s)) = map (fun cb => (cb, ev)) (listeners_of s tag).
Proof.
  intros H. unfold listeners_of.
  destruct (slot (eventListeners s) tag) as [cbs| |] eqn:E; [|congruence|]; cbv zeta.
  - apply slot_own in E. rewrite E. apply forEach_call_listener.
  - assert (El : eventListeners s !! tag = None)
      by (apply slot_unowned; intros cbs; rewrite E; discriminate).
    rewrite El. repeat split.
Qed.

Lemma slot_all table : slot table "all" <> Inherited.
Proof. apply slot_plain. reflexivity. Qed.

(** The run of [_dispatchEvent] on a tag that is an own key or that
    nothing answers for. *)
Lemma _dispatchEvent_run env ev s :
  slot (eventListeners s) (or_default (eventType ev) "detection") <> Inherited ->
  outcome (_dispatchEvent env ev s) = Ok tt
  /\ final (_dispatchEvent env ev s) = s
  /\ invocations (effects (_dispatchEvent env ev s))
     = map (fun cb => (cb, ev))
           (listeners_of s (or_default (eventType ev) "detection") ++ listeners_of s "all")%list.
Proof.
  intros H. unfold _dispatchEvent.
  set (tag := or_default (eventType ev) "detection") in *.
  pose proof (listeners_forEach env ("Error in event listener for " +:+ tag +:+ ":")
                "this.eventListeners[eventType].forEach is not a function" ev s tag H)
    as (Hf1 & Ho1 & He1).
  pose proof (listeners_forEach env all_listener_label
                "this.eventListeners.all.forEach is not a function" ev s "all"
                (slot_all (eventListeners s)))
    as (Hf2 & Ho2 & He2).
  rewrite bind_get. rewrite (bind_ok _ _ _ _ Ho1). cbn [final outcome effects].
  rewrite Hf1, bind_get, Ho2, Hf2, map_app, <- He1, <- He2, invocations_app.
  repeat split.
Qed.



(** A session with one listener, number 7, under ["detection"]. *)
Definition detection_session : Session :=
  set_eventListeners {[ "detection" := [7] ]} sample_session.



(** ** Runs of the request executor *)

Lemma request_send_run meth path data s :
  request_send meth path data s
  = mkRun s [EConsole LLog "API Request:";
             EFetch meth (baseUrl (config s) +:+ path) (if is_mutating meth then data else None)]
          (Ok tt).
Proof. reflexivity. Qed.

Lemma request_rethrow_run url msg s :
  exists e, request_rethrow url msg s = mkRun s [] (Throw e).
Proof. unfold request_rethrow. destruct (includes msg "fetch"); eexists; reflexivity. Qed.

(** The part of [_request] after [fetch] has answered with [r]. *)
Lemma request_receive_run env r s :
  final (request_receive env (FetchResponds r) s)
  = set_rateLimit (track_rate_limits env r (rateLimit s)) s
  /\ (response_ok r = false ->
      exists e, outcome (request_receive env (FetchResponds r) s) = Throw e)
  /\ (forall j, response_ok r = true -> json r = Ok j ->
        request_receive env (FetchResponds r) s
        = mkRun (set_rateLimit (track_rate_limits env r (rateLimit s)) s)
                [EConsole LLog "API Response:"] (Ok j)).
Proof.
  unfold request_receive. rewrite bind_modify.
  destruct (response_ok r); cbn [negb].
  - split; [destruct (json r); reflexivity|]. split; [discriminate|].
    intros j _ ->. reflexivity.
  - split; [reflexivity|]. split; [intros _; eexists; reflexivity | discriminate].
Qed.

(** [_request] in terms of what follows [fetch]. *)
Lemma _request_run env meth path data fo s :
  _request env meth path data fo s
  = mkRun (final (request_resume env path fo s))
          ([EConsole LLog "API Request:";
            EFetch meth (baseUrl (config s) +:+ path) (if is_mutating meth then data else None)]
           ++ effects (request_resume env path fo s))%list
          (outcome (request_resume env path fo s)).
Proof.
  unfold _request.
  exact (bind_run _ (fun _ => request_resume env path fo) s s _ tt
           (request_send_run meth path data s)).
Qed.

Lemma request_resume_run env path fo s :
  request_resume env path fo s
  = try_catch (request_receive env fo) (request_rethrow (baseUrl (config s) +:+ path)) s.
Proof.
  unfold request_resume.
  exact (bind_get (fun s => baseUrl (config s))
           (fun base => try_catch (request_receive env fo) (request_rethrow (base +:+ path))) s).
Qed.

(** ** Rate limits *)

(** C10. Whatever the status of the response, [_request] leaves in
    [this.rateLimit] the snapshot updated from the response headers: a
    field whose header is present takes the parsed header, a field whose
    header is absent keeps its value.  A response that is not 2xx makes
    the call throw, with the snapshot updated all the same. *)
Theorem request_tracks_rate_limits (env : Env) (meth path : string)
    (data : option Payload) (r : Response) (s : Session) :
  rateLimit (final (_request env meth path data (FetchResponds r) s))
  = mkRateLimit
      (match headers r !! "X-RateLimit-Limit" with
       | Some v => parseInt10 env v
       | None => limit (rateLimit s)
       end)
      (match headers r !! "X-RateLimit-Remaining" with
       | Some v => parseInt10 env v
       | None => remaining (rateLimit s)
       end)
      (match headers r !! "X-RateLimit-Reset" with
       | Some v => parseInt10 env v
       | None => reset (rateLimit s)
       end)
  /\ (response_ok r = false ->
      exists e, outcome (_request env meth path data (FetchResponds r) s) = Throw e).
Proof.
  rewrite _request_run, request_resume_run. cbn [final outcome effects].
  destruct (request_receive_run env r s) as (Hf & Hthrow & _).
  unfold try_catch.
  destruct (outcome (request_receive env (FetchResponds r) s)) as [j|e] eqn:E.
  - split; [rewrite Hf; reflexivity|].
    intros Hno. destruct (Hthrow Hno) as [e He]. congruence.
  - destruct (request_rethrow_run (baseUrl (config s) +:+ path) e
                (final (request_receive env (FetchResponds r) s))) as [e' He'].
    rewrite He'. cbn [final outcome effects]. rewrite Hf.
    split; [reflexivity | intros _; eexists; reflexivity].
Qed.

(** ** Disconnect *)

Lemma disconnect_final s :
  final (disconnect s)
  = mkSession (config s) (eventListeners s) ∅ None false false 0
              (user s) (organization s) (rateLimit s).
Proof.
  destruct s as [cfg el aw [[url [|]]|] c1 c2 n u o rl]; reflexivity.
Qed.

Lemma disconnect_outcome s : outcome (disconnect s) = Ok tt.
Proof.
  destruct s as [cfg el aw [[url [|]]|] c1 c2 n u o rl]; reflexivity.
Qed.

Lemma disconnect_effects s :
  effects (disconnect s)
  = match socket s with
    | Some k =>
        ESocketDisconnect (sock_url k)
        :: (if connected k
            then [EConsole LLog "Disconnected from Cybernate events socket: io client disconnect"]
            else [])
    | None => []
    end.
Proof.
  destruct s as [cfg el aw [[url [|]]|] c1 c2 n u o rl]; reflexivity.
Qed.

(** C3 (amended). [disconnect()] closes the socket when there is one and
    drops the handle, empties the watch registry, resets the reconnect
    counter and leaves the session neither connected nor connecting; the
    listener table, like the configuration, the identity and the
    rate-limit snapshot, is left as it was.  A second [disconnect()] does
    nothing: no effect, and the state stays the same. *)
Theorem disconnect_tears_down (s : Session) :
  outcome (disconnect s) = Ok tt
  /\ socket (final (disconnect s)) = None
  /\ (forall k, socket s = Some k ->
        head (effects (disconnect s)) = Some (ESocketDisconnect (sock_url k)))
  /\ (socket s = None -> effects (disconnect s) = [])
  /\ activeWatchers (final (disconnect s)) = ∅
  /\ reconnectCount (final (disconnect s)) = 0
  /\ isConnected (final (disconnect s)) = false
  /\ isConnecting (final (disconnect s)) = false
  /\ eventListeners (final (disconnect s)) = eventListeners s
  /\ config (final (disconnect s)) = config s
  /\ (user (final (disconnect s)), organization (final (disconnect s)),
      rateLimit (final (disconnect s)))
     = (user s, organization s, rateLimit s)
  /\ disconnect (final (disconnect s)) = mkRun (final (disconnect s)) [] (Ok tt).
Proof.
  rewrite disconnect_final, disconnect_outcome, disconnect_effects.
  repeat split.
  - intros k ->. reflexivity.
  - intros ->. reflexivity.
Qed.

(** C3, as stated, fails on a session that has a listener: after
    [disconnect()] the listener table still holds it, so the table has not
    been cleared. *)
Lemma disconnect_keeps_listeners_counterexample :
  listeners_of detection_session "detection" = [7]
  /\ listeners_of (final (disconnect detection_session)) "detection" = [7]
  /\ invocations
       (effects (_dispatchEvent sample_env (mkEventData (Some "detection") "payload")
                   (final (disconnect detection_session))))
     = [(7, mkEventData (Some "detection") "payload")].
Proof. repeat split. Qed.

(** ** Stream set-up attempts *)

Definition is_attempt (e : Effect) : bool :=
  match e with
  | ESetupAttempt => true
  | _ => false
  end.

(** The number of times [_setupWebSocket] was entered in an effect log. *)
Definition attempts (l : list Effect) : nat := length (List.filter is_attempt l).

Lemma attempts_app l1 l2 : attempts (l1 ++ l2)%list = attempts l1 + attempts l2.
Proof. unfold attempts. rewrite List.filter_app, length_app. reflexivity. Qed.

(** [m] starts no stream set-up. *)
Definition silent {A} (m : M A) : Prop :=
  forall s, attempts (effects (m s)) = 0.

Lemma silent_ret {A} (a : A) : silent (ret a).
Proof. intros s; reflexivity. Qed.

Lemma silent_throw {A} (e : string) : silent (@throw A e).
Proof. intros s; reflexivity. Qed.

Lemma silent_get {A} (g : Session -> A) : silent (get g).
Proof. intros s; reflexivity. Qed.

Lemma silent_modify g : silent (modify g).
Proof. intros s; reflexivity. Qed.

Lemma silent_console lvl text : silent (console lvl text).
Proof. intros s; reflexivity. Qed.

Lemma silent_emit e : is_attempt e = false -> silent (emit e).
Proof. intros H s. unfold attempts; simpl. rewrite H. reflexivity. Qed.

Lemma silent_bind {A C} (m : M A) (k : A -> M C) :
  silent m -> (forall a, silent (k a)) -> silent (bind m k).
Proof.
  intros Hm Hk s. unfold bind.
  destruct (outcome (m s)) as [a|e]; cbn [effects].
  - rewrite attempts_app, Hm, Hk. reflexivity.
  - apply Hm.
Qed.

Lemma silent_try_catch {A} (m : M A) (h : string -> M A) :
  silent m -> (forall e, silent (h e)) -> silent (try_catch m h).
Proof.
  intros Hm Hh s. unfold try_catch.
  destruct (outcome (m s)) as [a|e]; cbn [effects].
  - apply Hm.
  - rewrite attempts_app, Hm, Hh. reflexivity.
Qed.

Lemma silent_when b (m : M unit) : silent m -> silent (when b m).
Proof. intros Hm. destruct b; simpl; [exact Hm | apply silent_ret]. Qed.

Ltac silent_step :=
  lazymatch goal with
  | |- silent (ret _) => apply silent_ret
  | |- silent (throw _) => apply silent_throw
  | |- silent (get _) => apply silent_get
  | |- silent (modify _) => apply silent_modify
  | |- silent (console _ _) => apply silent_console
  | |- silent (emit _) => apply silent_emit; reflexivity
  | |- silent (bind _ _) => apply silent_bind; [| intro]
  | |- silent (try_catch _ _) => apply silent_try_catch; [| intro]
  | |- silent (when _ _) => apply silent_when
  | |- silent (match ?x with _ => _ end) => destruct x
  end.

Ltac silent_all := repeat silent_step.

Lemma handle_disconnect_silent reason : silent (handle_disconnect reason).
Proof. unfold handle_disconnect. silent_all. Qed.

Lemma socket_disconnect_silent k : silent (socket_disconnect k).
Proof. unfold socket_disconnect. silent_all. apply handle_disconnect_silent. Qed.

Lemma handshake_silent h : silent (handshake h).
Proof.
  induction h as [| |msg rest IH]; simpl; silent_all;
    auto using socket_disconnect_silent.
Qed.

(** Every call of [_setupWebSocket] is one attempt. *)
Lemma _setupWebSocket_attempts env io s :
  attempts (effects (_setupWebSocket env io s)) = 1.
Proof.
  unfold _setupWebSocket.
  match goal with
  | |- attempts (effects (bind (emit ESetupAttempt) ?k s)) = 1 =>
      assert (Hk : silent (k tt)); [| change (1 + attempts (effects (k tt s)) = 1) ]
  end.
  - cbv beta. silent_all; auto using socket_disconnect_silent, handshake_silent.
  - rewrite Hk. reflexivity.
Qed.

(** ** Manual retry of the stream *)

(** The session [new CybernateAI('sk_test', { enableWebSocket: false })]. *)
Definition http_only_session : Session :=
  mkSession (mkConfig "sk_test" "https://api.cybernate.ai/v1" (int 30000) true false (int 5)
                       (int 1000))
            ∅ ∅ None false false 0 None None zero_rateLimit.

(** C7 (amended). On a session with the stream enabled, in a host that
    has socket.io, [retryWebSocketConnection()] does not throw: it returns
    [true] without any set-up when the stream is connected, and otherwise
    makes exactly one set-up attempt, whatever the reconnect counter, and
    returns whether that attempt succeeded.  When the stream is disabled
    or socket.io is missing it throws without an attempt. *)
Theorem retry_returns_boolean (env : Env) (io : IoEnv) (s : Session) :
  if enableWebSocket (config s) && _socketIsEnabled env then
    outcome (retryWebSocketConnection env io s)
    = Ok (if socket_connected s then true
          else match outcome (_setupWebSocket env io s) with
               | Ok _ => true
               | Throw _ => false
               end)
    /\ attempts (effects (retryWebSocketConnection env io s))
       = (if socket_connected s then 0 else 1)
    /\ (socket_connected s = true ->
        retryWebSocketConnection env io s = mkRun s [] (Ok true))
  else
    retryWebSocketConnection env io s
    = mkRun s [] (Throw "WebSocket not enabled or available").
Proof.
  pose proof (_setupWebSocket_attempts env io s) as Hn.
  unfold retryWebSocketConnection, try_catch, bind, get, console, emit, ret, throw.
  cbn [final outcome effects].
  destruct (enableWebSocket (config s)); [|reflexivity].
  destruct (_socketIsEnabled env); [|reflexivity].
  cbn [negb orb andb].
  destruct (socket_connected s); [repeat split|].
  destruct (outcome (_setupWebSocket env io s)) as [[]|e]; cbn [final outcome effects];
    rewrite ?attempts_app, Hn; (split; [reflexivity | split; [reflexivity | discriminate]]).
Qed.

(** C7, as stated, fails on a session created with the stream disabled:
    the call throws instead of returning a boolean. *)
Lemma retry_throws_counterexample :
  constructor "sk_test" (mkOptions None None None (Some false) None None)
  = inr http_only_session
  /\ retryWebSocketConnection sample_env (IoOpens HsAck) http_only_session
     = mkRun http_only_session [] (Throw "WebSocket not enabled or available").
Proof. split; reflexivity. Qed.

(** ** Watch validation *)

(** The options [{ deviceId: d }]. *)
Definition device_only (d : string) : WatchOptions :=
  mkWatchOptions None (Some d) None None None None.

(** C5. On a connected session whose stream is not connected,
    [watch({deviceId: d})] without [notificationSettings] throws a
    validation error, with no effect at all (no request is sent) and the
    session, so the watch registry, left as it was.  For a non-empty [d]
    the endpoint picked is [/devices/watch], the notification method
    defaults to ["webhook"], and the error is the missing [webhookUrl]. *)
Theorem watch_device_requires_webhook (env : Env) (now d : string) (fo : FetchOutcome)
    (s : Session) :
  isConnected s = true ->
  socket_connected s = false ->
  (exists e, watch env now (device_only d) fo s = mkRun s [] (Throw e))
  /\ (d <> EmptyString ->
      fst (watch_target now (device_only d)) = "/devices/watch"
      /\ method (watch_notification (device_only d) (socket_connected s)) = Some "webhook"
      /\ watch env now (device_only d) fo s
         = mkRun s [] (Throw "webhookUrl is required for webhook notifications")).
Proof.
  intros Hc Hs.
  assert (Hd : d <> EmptyString -> String.eqb d EmptyString = false).
  { intros Hne. apply String.eqb_neq. exact Hne. }
  unfold watch, _ensureConnected, watch_target, watch_notification, device_only.
  unfold bind, get, ret, throw. cbn. rewrite Hc. cbn.
  destruct (String.eqb d EmptyString) eqn:E; cbn; rewrite ?Hs; cbn.
  - split; [eexists; reflexivity | intros Hne; apply Hd in Hne; congruence].
  - split; [eexists; reflexivity | intros _; repeat split].
Qed.

Lemma watch_device_requires_webhook_witness :
  (exists e, watch sample_env "2024-01-01T00:00:00.000Z" (device_only "d1")
               (FetchRejects "unused") (set_isConnected true sample_session)
             = mkRun (set_isConnected true sample_session) [] (Throw e))
  /\ ("d1" <> EmptyString ->
      fst (watch_target "2024-01-01T00:00:00.000Z" (device_only "d1")) = "/devices/watch"
      /\ method (watch_notification (device_only "d1")
                   (socket_connected (set_isConnected true sample_session))) = Some "webhook"
      /\ watch sample_env "2024-01-01T00:00:00.000Z" (device_only "d1")
               (FetchRejects "unused") (set_isConnected true sample_session)
         = mkRun (set_isConnected true sample_session) []
                 (Throw "webhookUrl is required for webhook notifications")).
Proof.
  apply (watch_device_requires_webhook sample_env "2024-01-01T00:00:00.000Z" "d1"
           (FetchRejects "unused") (set_isConnected true sample_session));
    reflexivity.
Defined.

(** ** Outcome of a stream set-up *)

(** Whether a hand-shake started with the reconnect counter at [c] ends
    in a rejection: the timer fires before ['connect'], or a
    ['connect_error'] comes while the counter is 0. *)
Fixpoint hs_fails (c : nat) (h : Handshake) : bool :=
  match h with
  | HsAck => false
  | HsTimeout => true
  | HsError _ rest => if (c =? 0)%nat then true else hs_fails c rest
  end.

Definition setup_fails (c : nat) (io : IoEnv) : bool :=
  match io with
  | IoOpens h => hs_fails c h
  | _ => true
  end.

Lemma handshake_fails h s :
  socket_connected s = false ->
  hs_fails (reconnectCount s) h = true ->
  (exists e, outcome (handshake h s) = Throw e)
  /\ socket_connected (final (handshake h s)) = false
  /\ reconnectCount (final (handshake h s)) = reconnectCount s.
Proof.
  intros Hs. induction h as [| |msg rest IH]; cbn [hs_fails]; intros Hf.
  - discriminate.
  - destruct s as [cfg el aw [[url c]|] ic ig n u o rl]; cbn in Hs; subst;
      (split; [eexists; reflexivity | split; reflexivity]).
  - cbn [handshake]. unfold bind, console, emit, get. cbn [final outcome effects].
    destruct (reconnectCount s =? 0)%nat.
    + split; [eexists; reflexivity | split; [exact Hs | reflexivity]].
    + destruct (IH Hf) as ([e He] & H1 & H2). rewrite He. cbn [final outcome effects].
      split; [eexists; reflexivity | split; assumption].
Qed.

Lemma handshake_acks h s :
  socket_connected s = false ->
  hs_fails (reconnectCount s) h = false ->
  outcome (handshake h s) = Ok tt
  /\ reconnectCount (final (handshake h s)) = 0
  /\ socket (final (handshake h s)) = socket (mark_connected true s).
Proof.
  intros Hs. induction h as [| |msg rest IH]; cbn [hs_fails]; intros Hf.
  - repeat split.
  - discriminate.
  - cbn [handshake]. unfold bind, console, emit, get. cbn [final outcome effects].
    destruct (reconnectCount s =? 0)%nat; [discriminate|].
    destruct (IH Hf) as (He & H1 & H2). rewrite He. cbn [final outcome effects].
    repeat split; assumption.
Qed.

(** What a set-up never touches: everything but the socket and the
    reconnect counter. *)
Definition outside_stream (s : Session) :=
  (config s, eventListeners s, activeWatchers s, isConnected s, isConnecting s,
   user s, organization s, rateLimit s).

Lemma outside_stream_inv s' s :
  outside_stream s' = outside_stream s ->
  config s' = config s /\ eventListeners s' = eventListeners s
  /\ activeWatchers s' = activeWatchers s /\ isConnected s' = isConnected s
  /\ isConnecting s' = isConnecting s /\ user s' = user s
  /\ organization s' = organization s /\ rateLimit s' = rateLimit s.
Proof.
  unfold outside_stream. intros H. injection H as H1 H2 H3 H4 H5 H6 H7 H8.
  repeat split; assumption.
Qed.

Lemma mark_connected_outside b s : outside_stream (mark_connected b s) = outside_stream s.
Proof. unfold mark_connected. destruct (socket s); reflexivity. Qed.

Lemma handle_disconnect_final reason s : final (handle_disconnect reason s) = s.
Proof.
  unfold handle_disconnect, bind, console, emit, get, when. cbn [final outcome effects].
  destruct (String.eqb reason "io server disconnect" && autoReconnect (config s)); reflexivity.
Qed.

Lemma socket_disconnect_outside k : preserves outside_stream (socket_disconnect k).
Proof.
  unfold socket_disconnect. frame; [apply mark_connected_outside|].
  intros s. rewrite handle_disconnect_final. reflexivity.
Qed.

Lemma handshake_outside h : preserves outside_stream (handshake h).
Proof.
  induction h as [| |msg rest IH]; simpl; frame;
    auto using mark_connected_outside, socket_disconnect_outside.
Qed.

Lemma _setupWebSocket_outside env io : preserves outside_stream (_setupWebSocket env io).
Proof.
  unfold _setupWebSocket. frame;
    auto using socket_disconnect_outside, handshake_outside.
Qed.

(** A set-up that fails throws, keeps the reconnect counter, and leaves no
    connected socket, unless it failed on [require], before touching the
    socket. *)
Lemma _setupWebSocket_fails env io s :
  _socketIsEnabled env = false \/ setup_fails (reconnectCount s) io = true ->
  (exists e, outcome (_setupWebSocket env io s) = Throw e)
  /\ reconnectCount (final (_setupWebSocket env io s)) = reconnectCount s
  /\ (socket_connected s = false ->
      socket_connected (final (_setupWebSocket env io s)) = false).
Proof.
  intros H. unfold _setupWebSocket, bind at 1, emit at 1. cbn [final outcome effects].
  destruct (_socketIsEnabled env).
  2:{ split; [eexists; reflexivity | split; [reflexivity | tauto]]. }
  destruct H as [H|H]; [discriminate|]. cbn [negb].
  destruct io as [| msg | h].
  - split; [eexists; reflexivity | split; [reflexivity | tauto]].
  - destruct s as [cfg el aw [[url [|]]|] ic ig n u o rl];
      (split; [eexists; reflexivity | split; reflexivity]).
  - cbn [setup_fails] in H.
    destruct s as [cfg el aw [[url [|]]|] ic ig n u o rl];
      cbn in H |- *;
      match goal with
      | |- context [handshake h ?s'] =>
          destruct (handshake_fails h s' eq_refl H) as ([e He] & H1 & H2)
      end;
      rewrite He; cbn in H2 |- *;
      (split; [eexists; reflexivity | split; [exact H2 | intros _; exact H1]]).
Qed.

(** A set-up that goes through returns with a connected socket and the
    reconnect counter at 0. *)
Lemma _setupWebSocket_acks env io s :
  _socketIsEnabled env = true ->
  setup_fails (reconnectCount s) io = false ->
  outcome (_setupWebSocket env io s) = Ok tt
  /\ reconnectCount (final (_setupWebSocket env io s)) = 0
  /\ socket_connected (final (_setupWebSocket env io s)) = true.
Proof.
  intros Hen H. unfold _setupWebSocket, bind at 1, emit at 1. cbn [final outcome effects].
  rewrite Hen. cbn [negb].
  destruct io as [| msg | h]; [discriminate | discriminate |].
  cbn [setup_fails] in H.
  destruct s as [cfg el aw [[url [|]]|] ic ig n u o rl];
    cbn in H |- *;
    match goal with
    | |- context [handshake h ?s'] =>
        destruct (handshake_acks h s' eq_refl H) as (He & H1 & H2)
    end;
    rewrite He; cbn in H2 |- *;
    (split; [reflexivity | split; [exact H1 | unfold socket_connected; rewrite H2; reflexivity]]).
Qed.

(** ** Connect *)

#[local] Arguments _setupWebSocket : simpl never.
#[local] Arguments _request : simpl never.

(** A 2xx response with a JSON body makes [_request] return the body. *)
Lemma request_ok env meth path data r j s :
  response_ok r = true ->
  json r = Ok j ->
  _request env meth path data (FetchResponds r) s
  = mkRun (set_rateLimit (track_rate_limits env r (rateLimit s)) s)
          [EConsole LLog "API Request:";
           EFetch meth (baseUrl (config s) +:+ path) (if is_mutating meth then data else None);
           EConsole LLog "API Response:"]
          (Ok j).
Proof.
  intros Hok Hj.
  destruct (request_receive_run env r s) as (_ & _ & Hrun).
  rewrite _request_run, request_resume_run.
  rewrite (try_catch_ok _ _ _ j); rewrite (Hrun j Hok Hj); reflexivity.
Qed.

Lemma connect_validated_done env io j s :
  (exists res, outcome (connect_validated env io j s) = Ok res)
  /\ isConnecting (final (connect_validated env io j s)) = false
  /\ isConnected (final (connect_validated env io j s)) = true.
Proof.
  unfold connect_validated, bind, modify, get, ret. cbn [final outcome effects].
  match goal with
  | |- context [outcome (when ?b ?m ?s')] =>
      assert (HW : outcome (when b m s') = Ok tt)
  end.
  { apply returns_unit, returns_when, returns_try_catch. intro. apply returns_console. }
  rewrite HW. cbn [final outcome effects].
  split; [eexists; reflexivity | split; reflexivity].
Qed.

(** However the validation request [m] ends, the [try]/[catch] of
    [connect] ends with [isConnecting] false. *)
Lemma connect_tail_flag (m : M Json) env io s :
  isConnecting (final (try_catch (bind m (connect_validated env io)) connect_failed s)) = false.
Proof.
  unfold try_catch, bind.
  destruct (outcome (m s)) as [j|e]; cbn [final outcome effects].
  - destruct (connect_validated_done env io j (final (m s))) as ([res Hres] & Hflag & _).
    rewrite Hres. cbn [final outcome effects]. exact Hflag.
  - reflexivity.
Qed.


(** The session in which [connect] starts the stream set-up, after a
    validation answered by [r] with body [j]. *)
Definition validated_session (env : Env) (r : Response) (j : Json) (s : Session) : Session :=
  set_identity (j_user j) (j_organization j)
    (set_rateLimit (track_rate_limits env r (rateLimit s)) (set_isConnecting true s)).

(** The run of [connect] when validation succeeds and the set-up throws. *)
Lemma connect_http_only_run env io r j s e :
  isConnecting s = false ->
  response_ok r = true ->
  json r = Ok j ->
  enableWebSocket (config s) = true ->
  _socketIsEnabled env = true ->
  outcome (_setupWebSocket env io (validated_session env r j s)) = Throw e ->
  connect env (FetchResponds r) io s
  = let s4 := final (_setupWebSocket env io (validated_session env r j s)) in
    mkRun (set_isConnecting false (set_isConnected true s4))
          ([EConsole LLog "API Request:";
            EFetch "GET" (baseUrl (config s) +:+ "/auth/validate") None;
            EConsole LLog "API Response:"]
           ++ effects (_setupWebSocket env io (validated_session env r j s))
           ++ [EConsole LWarn
                 ("WebSocket connection failed, falling back to HTTP-only mode: " +:+ e)])%list
          (Ok (mkConnectResult true (user s4) (organization s4) (socket_connected s4))).
Proof.
  intros Hs Hok Hj Hen Hav He. cbv zeta.
  assert (Hcv : connect_validated env io j
                  (set_rateLimit (track_rate_limits env r (rateLimit s)) (set_isConnecting true s))
                = mkRun (set_isConnecting false (set_isConnected true
                           (final (_setupWebSocket env io (validated_session env r j s)))))
                        (effects (_setupWebSocket env io (validated_session env r j s))
                         ++ [EConsole LWarn
                               ("WebSocket connection failed, falling back to HTTP-only mode: "
                                +:+ e)])%list
                        (Ok (mkConnectResult true
                               (user (final (_setupWebSocket env io (validated_session env r j s))))
                               (organization
                                  (final (_setupWebSocket env io (validated_session env r j s))))
                               (socket_connected
                                  (final (_setupWebSocket env io (validated_session env r j s))))))).
  { unfold connect_validated. rewrite bind_modify, bind_get.
    change (set_identity _ _ _) with (validated_session env r j s).
    replace (enableWebSocket (config (validated_session env r j s))) with true
      by (symmetry; exact Hen).
    rewrite Hav. cbn [andb when].
    rewrite (bind_run _ _ _ (final (_setupWebSocket env io (validated_session env r j s)))
               (effects (_setupWebSocket env io (validated_session env r j s))
                ++ [EConsole LWarn
                      ("WebSocket connection failed, falling back to HTTP-only mode: " +:+ e)])%list
               tt).
    - rewrite bind_modify, bind_modify, bind_get. cbn [ret final effects outcome].
      rewrite app_nil_r. reflexivity.
    - rewrite (try_catch_throw _ _ _ _ He). reflexivity. }
  unfold connect. rewrite bind_get, Hs, bind_modify.
  pose proof (request_ok env "GET" "/auth/validate" None r j (set_isConnecting true s) Hok Hj)
    as Hr.
  rewrite (try_catch_ok _ _ _ (mkConnectResult true
             (user (final (_setupWebSocket env io (validated_session env r j s))))
             (organization (final (_setupWebSocket env io (validated_session env r j s))))
             (socket_connected (final (_setupWebSocket env io (validated_session env r j s)))))).
  - rewrite (bind_run _ _ _ _ _ _ Hr). cbn [rateLimit set_isConnecting] in Hcv |- *.
    rewrite Hcv. reflexivity.
  - rewrite (bind_run _ _ _ _ _ _ Hr). cbn [rateLimit set_isConnecting] in Hcv |- *.
    rewrite Hcv. reflexivity.
Qed.

Lemma unwatch_ok env id_ r j s :
  isConnected s = true ->
  id_ <> EmptyString ->
  response_ok r = true ->
  json r = Ok j ->
  outcome (unwatch env (Some id_) (FetchResponds r) s) = Ok j
  /\ activeWatchers (final (unwatch env (Some id_) (FetchResponds r) s))
     = delete (Some id_) (activeWatchers s).
Proof.
  intros Hc Hid Hok Hj.
  pose proof (request_ok env "DELETE" ("/events/watch/" +:+ id_) None r j s Hok Hj) as Hr.
  apply String.eqb_neq in Hid.
  unfold unwatch, _ensureConnected, bind, get, modify, ret, throw.
  cbn. rewrite Hc. cbn. rewrite Hid. rewrite Hr. cbn. split; reflexivity.
Qed.

(** A validation response of the sample server. *)
Definition sample_validation : Response :=
  mkResponse 200 "OK" ∅ (Ok (mkJson None (Some "user-1") (Some "org-1") None None None)).

(** C2. When validation succeeds (a 2xx response with a JSON body) and the
    stream set-up that [connect()] then attempts fails, [connect()] still
    returns its result, with the identity of the response; the session is
    connected and no longer connecting; the last thing done is the
    warning about the fall-back to HTTP-only mode; and, if no stream was
    up when [connect()] was called, none is up afterwards.  From then on
    the connected check passes, and a resource call such as [unwatch]
    goes through on a 2xx response. *)
Theorem connect_survives_stream_failure (env : Env) (io : IoEnv) (r : Response)
    (j : Json) (s : Session) :
  isConnecting s = false ->
  response_ok r = true ->
  json r = Ok j ->
  enableWebSocket (config s) = true ->
  _socketIsEnabled env = true ->
  setup_fails (reconnectCount s) io = true ->
  let c := connect env (FetchResponds r) io s in
  outcome c = Ok (mkConnectResult true (j_user j) (j_organization j)
                    (socket_connected (final c)))
  /\ (socket_connected s = false -> socket_connected (final c) = false)
  /\ isConnected (final c) = true
  /\ isConnecting (final c) = false
  /\ (exists e, last (effects c)
                = Some (EConsole LWarn
                          ("WebSocket connection failed, falling back to HTTP-only mode: "
                           +:+ e)))
  /\ _ensureConnected (final c) = mkRun (final c) [] (Ok tt)
  /\ (forall id_ r' j', id_ <> EmptyString -> response_ok r' = true -> json r' = Ok j' ->
        outcome (unwatch env (Some id_) (FetchResponds r') (final c)) = Ok j').
Proof.
  intros Hs Hok Hj Hen Hav Hfail c.
  destruct (_setupWebSocket_fails env io (validated_session env r j s) (or_intror Hfail))
    as ([e He] & _ & Hsock).
  destruct (outside_stream_inv _ _ (_setupWebSocket_outside env io (validated_session env r j s)))
    as (_ & _ & _ & _ & _ & Hu & Ho & _).
  change (user (validated_session env r j s)) with (j_user j) in Hu.
  change (organization (validated_session env r j s)) with (j_organization j) in Ho.
  subst c. rewrite (connect_http_only_run env io r j s e Hs Hok Hj Hen Hav He).
  cbn [final outcome effects]. cbn zeta.
  assert (Hc : isConnected (set_isConnecting false (set_isConnected true
                 (final (_setupWebSocket env io (validated_session env r j s))))) = true)
    by reflexivity.
  split; [rewrite Hu, Ho; reflexivity|].
  split; [intros Hdown; apply Hsock; exact Hdown|].
  split; [reflexivity|]. split; [reflexivity|].
  split.
  { exists e. rewrite !app_assoc. apply last_snoc. }
  split.
  { unfold _ensureConnected, bind, get. cbn [final outcome effects]. rewrite Hc. reflexivity. }
  intros id_ r' j' Hid Hok' Hj'. apply unwatch_ok; assumption.
Qed.

Lemma connect_survives_stream_failure_witness :
  let c := connect sample_env (FetchResponds sample_validation) (IoOpens HsTimeout)
             sample_session in
  outcome c = Ok (mkConnectResult true (Some "user-1") (Some "org-1")
                    (socket_connected (final c)))
  /\ (socket_connected sample_session = false -> socket_connected (final c) = false)
  /\ isConnected (final c) = true
  /\ isConnecting (final c) = false
  /\ (exists e, last (effects c)
                = Some (EConsole LWarn
                          ("WebSocket connection failed, falling back to HTTP-only mode: "
                           +:+ e)))
  /\ _ensureConnected (final c) = mkRun (final c) [] (Ok tt)
  /\ (forall id_ r' j', id_ <> EmptyString -> response_ok r' = true -> json r' = Ok j' ->
        outcome (unwatch sample_env (Some id_) (FetchResponds r') (final c)) = Ok j').
Proof.
  apply (connect_survives_stream_failure sample_env (IoOpens HsTimeout) sample_validation
           (mkJson None (Some "user-1") (Some "org-1") None None None) sample_session);
    reflexivity.
Defined.

(** ** Calls of [connect] in flight *)

(** What can happen to the flag [isConnecting], which only [connect] and
    [disconnect] write: a call of [connect()], the settling of the
    [fetch] of a call in flight, after which that call runs to its end,
    or a call of [disconnect()]. *)
Inductive ConnectStep :=
| CallConnect
| Settle (fo : FetchOutcome) (io : IoEnv)
| CallDisconnect.

(** The session together with the number of calls of [connect()] that
    have sent their validation request and not completed. *)
Definition connect_step (env : Env) (st : Session * nat) (a : ConnectStep) : Session * nat :=
  match a with
  | CallConnect =>
      let r := connect_begin (fst st) in
      match outcome r with
      | Ok _ => (final r, S (snd st))
      | Throw _ => (final r, snd st)
      end
  | Settle fo io =>
      match snd st with
      | 0 => st
      | S n => (final (connect_resume env fo io (fst st)), n)
      end
  | CallDisconnect => (final (disconnect (fst st)), snd st)
  end.

(** Whether every [disconnect()] of a sequence is called with no
    [connect()] in flight. *)
Fixpoint disconnects_idle (env : Env) (l : list ConnectStep) (st : Session * nat) : bool :=
  match l with
  | [] => true
  | a :: rest =>
      match a with
      | CallDisconnect => (snd st =? 0)%nat
      | _ => true
      end && disconnects_idle env rest (connect_step env st a)
  end.

Definition connect_steps (env : Env) (l : list ConnectStep) (st : Session * nat) : Session * nat :=
  fold_left (connect_step env) l st.

(** The validation requests in an effect log. *)
Definition is_fetch (e : Effect) : bool :=
  match e with
  | EFetch _ _ _ => true
  | _ => false
  end.

(** Effects made before a [try] can as well be made inside it. *)
Lemma try_catch_prefix {A C} (m : M A) (k : A -> M C) (h : string -> M C)
    (send : M unit) l s :
  send s = mkRun s l (Ok tt) ->
  try_catch (bind (bind send (fun _ => m)) k) h s
  = mkRun (final (try_catch (bind m k) h s))
          (l ++ effects (try_catch (bind m k) h s))%list
          (outcome (try_catch (bind m k) h s)).
Proof.
  intros Hsend. unfold try_catch, bind. rewrite Hsend. cbn [final outcome effects].
  destruct (outcome (m s)) as [a|e]; cbn [final outcome effects].
  - destruct (outcome (k a (final (m s)))); cbn [final outcome effects];
      rewrite <- ?app_assoc; reflexivity.
  - rewrite <- ?app_assoc. reflexivity.
Qed.

Lemma connect_begin_run s :
  connect_begin s
  = if isConnecting s then mkRun s [] (Throw "Connection already in progress")
    else mkRun (set_isConnecting true s)
               [EConsole LLog "API Request:";
                EFetch "GET" (baseUrl (config s) +:+ "/auth/validate") None]
               (Ok tt).
Proof.
  unfold connect_begin. rewrite bind_get.
  destruct (isConnecting s); [reflexivity|]. rewrite bind_modify. reflexivity.
Qed.

(** [connect] is [connect_begin] followed by [connect_resume]. *)
Lemma connect_split env fo io s :
  connect env fo io s = bind connect_begin (fun _ => connect_resume env fo io) s.
Proof.
  unfold connect. rewrite bind_get.
  destruct (isConnecting s) eqn:E.
  - unfold bind. rewrite connect_begin_run, E. reflexivity.
  - rewrite bind_modify.
    rewrite (bind_run _ _ _ (set_isConnecting true s)
               [EConsole LLog "API Request:";
                EFetch "GET" (baseUrl (config s) +:+ "/auth/validate") None] tt)
      by (rewrite connect_begin_run, E; reflexivity).
    unfold connect_resume, _request.
    exact (try_catch_prefix _ _ _ _ _ (set_isConnecting true s)
             (request_send_run "GET" "/auth/validate" None (set_isConnecting true s))).
Qed.

(** As long as [disconnect()] is called only with no call in flight, the
    number of calls in flight is 1 when the session is connecting and 0
    otherwise. *)
Lemma connect_steps_invariant env l : forall st,
  snd st = (if isConnecting (fst st) then 1 else 0) ->
  disconnects_idle env l st = true ->
  snd (connect_steps env l st)
  = (if isConnecting (fst (connect_steps env l st)) then 1 else 0).
Proof.
  induction l as [|a l IH]; intros [s n] Hinv Hidle; [exact Hinv|].
  cbn [connect_steps fold_left]. cbn [disconnects_idle] in Hidle.
  apply andb_prop in Hidle as [Ha Hidle].
  apply IH; [|exact Hidle]. cbn [fst snd] in Hinv, Ha.
  destruct a as [|fo io|]; cbn [connect_step fst snd].
  - rewrite connect_begin_run. destruct (isConnecting s) eqn:E; cbn; [rewrite E; exact Hinv|].
    rewrite Hinv. reflexivity.
  - destruct n as [|n]; [cbn; exact Hinv|]. cbn [fst snd].
    unfold connect_resume. rewrite connect_tail_flag.
    destruct (isConnecting s); congruence.
  - apply Nat.eqb_eq in Ha. rewrite disconnect_final. exact Ha.
Qed.

(** C4 (amended). While [isConnecting] is set, so while a call of
    [connect()] is in flight and [disconnect()] has not been called since
    it started, another call of [connect()] throws
    ["Connection already in progress"] at once: it has no effect, so sends
    no validation request, and leaves the session as it is.  Hence,
    through any sequence of calls of [connect()], settlements and calls
    of [disconnect()] on a session that starts with no call in flight, at
    most one call of [connect()] is in flight as long as [disconnect()]
    is called only when none is. *)
Theorem connect_in_progress_rejects (env : Env) (fo : FetchOutcome) (io : IoEnv)
    (s : Session) :
  isConnecting s = true ->
  connect env fo io s = mkRun s [] (Throw "Connection already in progress")
  /\ List.filter is_fetch (effects (connect env fo io s)) = []
  /\ connect_begin s = mkRun s [] (Throw "Connection already in progress")
  /\ (forall s0 l, isConnecting s0 = false ->
        disconnects_idle env l (s0, 0) = true ->
        snd (connect_steps env l (s0, 0)) <= 1).
Proof.
  intros Hs.
  assert (Hc : connect env fo io s = mkRun s [] (Throw "Connection already in progress")).
  { unfold connect, bind, get. cbn [final outcome effects]. rewrite Hs. reflexivity. }
  split; [exact Hc|]. split; [rewrite Hc; reflexivity|].
  split; [rewrite connect_begin_run, Hs; reflexivity|].
  intros s0 l H0 Hidle.
  rewrite (connect_steps_invariant env l (s0, 0)).
  - destruct (isConnecting (fst (connect_steps env l (s0, 0)))); cbv iota; lia.
  - cbn. rewrite H0. reflexivity.
  - exact Hidle.
Qed.

Lemma connect_in_progress_rejects_witness :
  connect sample_env (FetchResponds sample_validation) (IoOpens HsAck)
          (set_isConnecting true sample_session)
  = mkRun (set_isConnecting true sample_session) [] (Throw "Connection already in progress")
  /\ List.filter is_fetch
       (effects (connect sample_env (FetchResponds sample_validation) (IoOpens HsAck)
                   (set_isConnecting true sample_session))) = []
  /\ connect_begin (set_isConnecting true sample_session)
     = mkRun (set_isConnecting true sample_session) [] (Throw "Connection already in progress")
  /\ (forall s0 l, isConnecting s0 = false ->
        disconnects_idle sample_env l (s0, 0) = true ->
        snd (connect_steps sample_env l (s0, 0)) <= 1).
Proof.
  apply (connect_in_progress_rejects sample_env (FetchResponds sample_validation)
           (IoOpens HsAck) (set_isConnecting true sample_session)).
  reflexivity.
Defined.

(** C4, as stated, fails when [disconnect()] is called while a
    [connect()] is in flight: the flag is cleared, the next [connect()]
    is accepted and sends its validation request, and two calls are in
    flight. *)
Lemma two_connects_in_flight_counterexample :
  snd (connect_steps sample_env [CallConnect; CallDisconnect; CallConnect]
         (sample_session, 0)) = 2
  /\ connect_begin (final (disconnect (final (connect_begin sample_session))))
     = mkRun (set_isConnecting true (final (disconnect (final (connect_begin sample_session)))))
             [EConsole LLog "API Request:";
              EFetch "GET" "https://api.cybernate.ai/v1/auth/validate" None]
             (Ok tt).
Proof. split; reflexivity. Qed.

(** ** Automatic reconnection *)

Definition is_timeout (e : Effect) : bool :=
  match e with
  | ESetTimeout _ => true
  | _ => false
  end.























(** * Further properties of the client *)

(** ** The request executor *)

(** Everything in the session but the rate-limit snapshot. *)
Definition outside_rate_limit (s : Session) :=
  (config s, eventListeners s, activeWatchers s, socket s, isConnected s, isConnecting s,
   reconnectCount s, user s, organization s).

(** The message [_request] rejects with when the body of its [try] threw
    [msg]. *)
Definition rethrown (url msg : string) : string :=
  if includes msg "fetch"
  then "Network error: Unable to connect to " +:+ url +:+
       ". Please check your internet connection."
  else "API request failed: " +:+ msg.

Lemma request_rethrow_rethrown url msg s :
  request_rethrow url msg s = mkRun s [] (Throw (rethrown url msg)).
Proof. unfold request_rethrow, rethrown. destruct (includes msg "fetch"); reflexivity. Qed.

Lemma request_resume_shape env path fo s :
  final (request_resume env path fo s)
  = match fo with
    | FetchRejects _ => s
    | FetchResponds r => set_rateLimit (track_rate_limits env r (rateLimit s)) s
    end
  /\ List.filter is_fetch (effects (request_resume env path fo s)) = []
  /\ attempts (effects (request_resume env path fo s)) = 0.
Proof.
  rewrite request_resume_run. unfold try_catch.
  destruct fo as [msg|r].
  - cbn [request_receive throw final outcome effects].
    rewrite request_rethrow_rethrown. repeat split.
  - unfold request_receive. rewrite bind_modify.
    destruct (response_ok r); cbn [negb].
    + destruct (json r) as [j|e]; cbn [throw bind console emit ret final outcome effects];
        rewrite ?request_rethrow_rethrown; repeat split.
    + cbn [throw bind console emit ret final outcome effects].
      rewrite request_rethrow_rethrown. repeat split.
Qed.

Lemma _request_frame env meth path data fo s :
  outside_rate_limit (final (_request env meth path data fo s)) = outside_rate_limit s
  /\ List.filter is_fetch (effects (_request env meth path data fo s))
     = [EFetch meth (baseUrl (config s) +:+ path) (if is_mutating meth then data else None)]
  /\ attempts (effects (_request env meth path data fo s)) = 0.
Proof.
  destruct (request_resume_shape env path fo s) as (Hf & He & Ha).
  rewrite _request_run. cbn [final outcome effects].
  split; [|split].
  - rewrite Hf. destruct fo; reflexivity.
  - rewrite List.filter_app, He. reflexivity.
  - rewrite attempts_app, Ha. reflexivity.
Qed.

Lemma _request_rejected env meth path data msg s :
  _request env meth path data (FetchRejects msg) s
  = mkRun s [EConsole LLog "API Request:";
             EFetch meth (baseUrl (config s) +:+ path) (if is_mutating meth then data else None)]
          (Throw (rethrown (baseUrl (config s) +:+ path) msg)).
Proof.
  rewrite _request_run, request_resume_run. unfold try_catch.
  cbn [request_receive throw final outcome effects].
  rewrite request_rethrow_rethrown. reflexivity.
Qed.

Lemma _request_not_ok env meth path data r s :
  response_ok r = false ->
  outcome (_request env meth path data (FetchResponds r) s)
  = Throw (rethrown (baseUrl (config s) +:+ path)
             (error_for_status r
                match json r with
                | Ok j => j
                | Throw _ =>
                    json_message ("HTTP " +:+ pretty (status r) +:+ ": " +:+ statusText r)
                end)).
Proof.
  intros Hno. rewrite _request_run, request_resume_run. unfold try_catch.
  unfold request_receive. rewrite bind_modify, Hno.
  cbn [negb throw bind console emit ret final outcome effects].
  rewrite request_rethrow_rethrown. reflexivity.
Qed.

Lemma _request_bad_json env meth path data r e s :
  response_ok r = true ->
  json r = Throw e ->
  outcome (_request env meth path data (FetchResponds r) s)
  = Throw (rethrown (baseUrl (config s) +:+ path) e).
Proof.
  intros Hok Hj. rewrite _request_run, request_resume_run. unfold try_catch.
  unfold request_receive. rewrite bind_modify, Hok, Hj.
  cbn [negb throw bind console emit ret final outcome effects].
  rewrite request_rethrow_rethrown. reflexivity.
Qed.

(** X1. [_request] sends exactly one [fetch], to the base URL followed by
    the path, with a body only for POST, PUT and PATCH; it starts no
    stream set-up; and all it changes in the session is the rate-limit
    snapshot, which it leaves alone too when [fetch] itself rejects. *)
Theorem request_touches_only_rate_limit (env : Env) (meth path : string)
    (data : option Payload) (fo : FetchOutcome) (s : Session) :
  outside_rate_limit (final (_request env meth path data fo s)) = outside_rate_limit s
  /\ List.filter is_fetch (effects (_request env meth path data fo s))
     = [EFetch meth (baseUrl (config s) +:+ path)
          (if String.eqb meth "POST" || String.eqb meth "PUT" || String.eqb meth "PATCH"
           then data else None)]
  /\ attempts (effects (_request env meth path data fo s)) = 0
  /\ (forall msg, final (_request env meth path data (FetchRejects msg) s) = s).
Proof.
  destruct (_request_frame env meth path data fo s) as (Hf & He & Ha).
  split; [exact Hf|]. split; [exact He|]. split; [exact Ha|].
  intros msg. rewrite _request_rejected. reflexivity.
Qed.

(** X2. Every failure inside [_request] comes out re-thrown by its
    [catch]: a rejection of [fetch] with its message, a response that is
    not 2xx with the message chosen by status (built from the [message]
    of the JSON body, or from ["HTTP <status>: <statusText>"] when the
    body is not JSON), a 2xx response without a JSON body with the parse
    error.  The message is prefixed with ["API request failed: "], unless
    it contains ["fetch"], in which case a network error is reported
    instead, whatever the cause was. *)
Theorem request_failure_message (env : Env) (meth path : string)
    (data : option Payload) (s : Session) :
  (forall msg,
     outcome (_request env meth path data (FetchRejects msg) s)
     = Throw (rethrown (baseUrl (config s) +:+ path) msg))
  /\ (forall r, response_ok r = false ->
        outcome (_request env meth path data (FetchResponds r) s)
        = Throw (rethrown (baseUrl (config s) +:+ path)
                   (error_for_status r
                      match json r with
                      | Ok j => j
                      | Throw _ =>
                          json_message ("HTTP " +:+ pretty (status r) +:+ ": " +:+ statusText r)
                      end)))
  /\ (forall r e, response_ok r = true -> json r = Throw e ->
        outcome (_request env meth path data (FetchResponds r) s)
        = Throw (rethrown (baseUrl (config s) +:+ path) e))
  /\ (forall r j, response_ok r = true -> json r = Ok j ->
        outcome (_request env meth path data (FetchResponds r) s) = Ok j).
Proof.
  split; [|split; [|split]].
  - intros msg. rewrite _request_rejected. reflexivity.
  - intros r Hno. apply _request_not_ok. exact Hno.
  - intros r e Hok Hj. apply _request_bad_json; assumption.
  - intros r j Hok Hj. rewrite (request_ok env meth path data r j s Hok Hj). reflexivity.
Qed.

(** ** The connected check *)

Definition not_connected_run {A} (s : Session) : Run A :=
  mkRun s [] (Throw "Not connected to Cybernate API. Call connect() first.").

Lemma ensure_off {A} (k : M A) s :
  isConnected s = false ->
  bind _ensureConnected (fun _ => k) s = not_connected_run s.
Proof.
  intros H. unfold _ensureConnected. unfold bind at 1. rewrite bind_get, H. reflexivity.
Qed.

Lemma ensure_on {A} (k : M A) s :
  isConnected s = true ->
  bind _ensureConnected (fun _ => k) s = k s.
Proof.
  intros H.
  assert (He : _ensureConnected s = mkRun s [] (Ok tt)).
  { unfold _ensureConnected. rewrite bind_get, H. reflexivity. }
  rewrite (bind_run _ _ _ _ _ _ He). cbn [app]. apply run_eta.
Qed.

(** X3. On a session that is not connected, [watch], [unwatch],
    [getActiveWatchers] and the resource calls without a body throw
    ["Not connected to Cybernate API. Call connect() first."] whatever
    their arguments, before anything else: nothing is sent or logged and
    the session is left as it was. *)
Theorem not_connected_sends_nothing (env : Env) (s : Session) :
  isConnected s = false ->
  (forall now options fo, watch env now options fo s = not_connected_run s)
  /\ (forall watcherId fo, unwatch env watcherId fo s = not_connected_run s)
  /\ (forall watchers fo, getActiveWatchers env watchers fo s = not_connected_run s)
  /\ (forall c fo, plain_call env c fo s = not_connected_run s).
Proof.
  intros H. split; [|split; [|split]].
  - intros. apply ensure_off, H.
  - intros. apply ensure_off, H.
  - intros. apply ensure_off, H.
  - intros c fo. destruct c; apply ensure_off, H.
Qed.

Lemma not_connected_sends_nothing_witness :
  (forall now options fo, watch sample_env now options fo sample_session
                          = not_connected_run sample_session)
  /\ (forall watcherId fo, unwatch sample_env watcherId fo sample_session
                           = not_connected_run sample_session)
  /\ (forall watchers fo, getActiveWatchers sample_env watchers fo sample_session
                          = not_connected_run sample_session)
  /\ (forall c fo, plain_call sample_env c fo sample_session = not_connected_run sample_session).
Proof. apply (not_connected_sends_nothing sample_env sample_session). reflexivity. Defined.

(** X4. On a connected session each of the resource calls without a body
    sends exactly one request, without a body, returns the parsed body of
    a 2xx response, and changes nothing in the session but the rate-limit
    snapshot. *)
Theorem plain_call_frame (env : Env) (c : PlainCall) (fo : FetchOutcome) (s : Session) :
  isConnected s = true ->
  outside_rate_limit (final (plain_call env c fo s)) = outside_rate_limit s
  /\ (exists meth path,
        List.filter is_fetch (effects (plain_call env c fo s))
        = [EFetch meth (baseUrl (config s) +:+ path) None])
  /\ (forall r j, fo = FetchResponds r -> response_ok r = true -> json r = Ok j ->
        outcome (plain_call env c fo s) = Ok j).
Proof.
  intros H.
  assert (Hgen : forall meth path,
            outside_rate_limit (final (_request env meth path None fo s)) = outside_rate_limit s
            /\ (exists meth' path',
                  List.filter is_fetch (effects (_request env meth path None fo s))
                  = [EFetch meth' (baseUrl (config s) +:+ path') None])
            /\ (forall r j, fo = FetchResponds r -> response_ok r = true -> json r = Ok j ->
                  outcome (_request env meth path None fo s) = Ok j)).
  { intros meth path.
    destruct (_request_frame env meth path None fo s) as (Hf & He & _).
    split; [exact Hf|]. split.
    - exists meth, path. rewrite He. destruct (is_mutating meth); reflexivity.
    - intros r j -> Hok Hj. rewrite (request_ok env meth path None r j s Hok Hj). reflexivity. }
  destruct c; cbn [plain_call];
    unfold getWebhooks, deleteWebhook, getFileInfo, deleteFile, getDashboardAnalytics,
      getIntegration, deleteIntegration, testIntegration, markNotificationAsRead,
      markAllNotificationsAsRead, getNotificationPreferences;
    rewrite (ensure_on _ s H); apply Hgen.
Qed.

(** A 2xx response that carries rate-limit headers. *)
Definition sample_limited_response : Response :=
  mkResponse 200 "OK"
    (<["X-RateLimit-Remaining" := "41"]> {[ "X-RateLimit-Limit" := "100" ]})
    (Ok (json_message "done")).

Lemma plain_call_frame_witness :
  outside_rate_limit
    (final (plain_call sample_env (TestIntegration (Some "int-1"))
              (FetchResponds sample_limited_response) (set_isConnected true sample_session)))
  = outside_rate_limit (set_isConnected true sample_session)
  /\ (exists meth path,
        List.filter is_fetch
          (effects (plain_call sample_env (TestIntegration (Some "int-1"))
                      (FetchResponds sample_limited_response)
                      (set_isConnected true sample_session)))
        = [EFetch meth (baseUrl (config (set_isConnected true sample_session)) +:+ path) None])
  /\ (forall r j, FetchResponds sample_limited_response = FetchResponds r ->
        response_ok r = true -> json r = Ok j ->
        outcome (plain_call sample_env (TestIntegration (Some "int-1"))
                   (FetchResponds sample_limited_response)
                   (set_isConnected true sample_session)) = Ok j).
Proof.
  apply (plain_call_frame sample_env (TestIntegration (Some "int-1"))
           (FetchResponds sample_limited_response) (set_isConnected true sample_session)).
  reflexivity.
Defined.

(** ** The watch registry *)

(** Everything in the session but the watch registry and the rate-limit
    snapshot. *)
Definition outside_registry (s : Session) :=
  (config s, eventListeners s, socket s, isConnected s, isConnecting s,
   reconnectCount s, user s, organization s).

Lemma outside_rate_limit_inv s' s :
  outside_rate_limit s' = outside_rate_limit s ->
  outside_registry s' = outside_registry s /\ activeWatchers s' = activeWatchers s.
Proof.
  unfold outside_rate_limit, outside_registry. intros H.
  injection H as H1 H2 H3 H4 H5 H6 H7 H8 H9. split; congruence.
Qed.

Lemma _request_outside_registry env meth path data fo :
  preserves outside_registry (_request env meth path data fo).
Proof.
  intros s.
  destruct (_request_frame env meth path data fo s) as (H & _).
  apply outside_rate_limit_inv in H. apply H.
Qed.

Lemma _request_registry env meth path data fo :
  preserves activeWatchers (_request env meth path data fo).
Proof.
  intros s.
  destruct (_request_frame env meth path data fo s) as (H & _).
  apply outside_rate_limit_inv in H. apply H.
Qed.

(** X5. [unwatch] on a connected session: without an id, or with the
    empty string, it throws ["watcherId is required"] and does nothing;
    with an id it sends one DELETE to [/events/watch/<id>]; when the
    request succeeds the id is removed from the registry and the body
    returned, when it fails the registry is as before.  The rest of the
    session, the rate-limit snapshot apart, is never touched. *)
Theorem unwatch_registry (env : Env) (fo : FetchOutcome) (id_ : string) (s : Session) :
  isConnected s = true ->
  id_ <> EmptyString ->
  unwatch env None fo s = mkRun s [] (Throw "watcherId is required")
  /\ unwatch env (Some EmptyString) fo s = mkRun s [] (Throw "watcherId is required")
  /\ List.filter is_fetch (effects (unwatch env (Some id_) fo s))
     = [EFetch "DELETE" (baseUrl (config s) +:+ "/events/watch/" +:+ id_) None]
  /\ outside_registry (final (unwatch env (Some id_) fo s)) = outside_registry s
  /\ (forall r j, fo = FetchResponds r -> response_ok r = true -> json r = Ok j ->
        outcome (unwatch env (Some id_) fo s) = Ok j
        /\ activeWatchers (final (unwatch env (Some id_) fo s)) !! Some id_ = None)
  /\ (forall j, outcome (unwatch env (Some id_) fo s) = Ok j ->
        activeWatchers (final (unwatch env (Some id_) fo s))
        = delete (Some id_) (activeWatchers s))
  /\ (forall e, outcome (unwatch env (Some id_) fo s) = Throw e ->
        activeWatchers (final (unwatch env (Some id_) fo s)) = activeWatchers s).
Proof.
  intros H Hne. unfold unwatch. rewrite !(ensure_on _ s H).
  split; [reflexivity|]. split; [reflexivity|].
  pose proof Hne as Hid. apply String.eqb_neq in Hid. rewrite Hid.
  destruct (_request_frame env "DELETE" ("/events/watch/" +:+ id_) None fo s)
    as (_ & Hfetch & _).
  pose proof (_request_outside_registry env "DELETE" ("/events/watch/" +:+ id_) None fo s) as Hout.
  pose proof (_request_registry env "DELETE" ("/events/watch/" +:+ id_) None fo s) as Hreg.
  change (is_mutating "DELETE") with false in Hfetch. cbv iota in Hfetch.
  destruct (outcome (_request env "DELETE" ("/events/watch/" +:+ id_) None fo s)) as [j|e] eqn:E.
  - rewrite (bind_ok _ _ _ _ E), bind_modify. cbn [ret final outcome effects].
    rewrite app_nil_r. split; [exact Hfetch|]. split; [exact Hout|].
    cbn [activeWatchers set_activeWatchers].
    split; [|split; [intros _ _; rewrite Hreg; reflexivity | discriminate]].
    intros r j' -> Hok Hj.
    rewrite (request_ok env "DELETE" _ None r j' s Hok Hj) in E. cbn [outcome] in E.
    split; [symmetry; exact E | apply lookup_delete_eq].
  - rewrite (bind_throw _ _ _ _ E). cbn [final outcome effects].
    split; [exact Hfetch|]. split; [exact Hout|].
    split; [|split; [discriminate | intros _ _; exact Hreg]].
    intros r j -> Hok Hj.
    rewrite (request_ok env "DELETE" _ None r j s Hok Hj) in E. discriminate.
Qed.

(** The sample session connected, watching ["w-1"] and ["w-2"]. *)
Definition watching_session : Session :=
  set_activeWatchers
    (<[Some "w-2" := mkWatcher (Some "w-2") (Some "stream") (Some "s1") "2024-01-02"]>
       {[ Some "w-1" := mkWatcher (Some "w-1") (Some "device") (Some "d1") "2024-01-01" ]})
    (set_isConnected true sample_session).

Lemma unwatch_registry_witness :
  unwatch sample_env None (FetchResponds sample_limited_response) watching_session
  = mkRun watching_session [] (Throw "watcherId is required")
  /\ unwatch sample_env (Some EmptyString) (FetchResponds sample_limited_response)
       watching_session
     = mkRun watching_session [] (Throw "watcherId is required")
  /\ List.filter is_fetch
       (effects (unwatch sample_env (Some "w-1") (FetchResponds sample_limited_response)
                   watching_session))
     = [EFetch "DELETE" (baseUrl (config watching_session) +:+ "/events/watch/" +:+ "w-1") None]
  /\ outside_registry
       (final (unwatch sample_env (Some "w-1") (FetchResponds sample_limited_response)
                 watching_session))
     = outside_registry watching_session
  /\ (forall r j, FetchResponds sample_limited_response = FetchResponds r ->
        response_ok r = true -> json r = Ok j ->
        outcome (unwatch sample_env (Some "w-1") (FetchResponds sample_limited_response)
                   watching_session) = Ok j
        /\ activeWatchers
             (final (unwatch sample_env (Some "w-1") (FetchResponds sample_limited_response)
                       watching_session)) !! Some "w-1" = None)
  /\ (forall j,
        outcome (unwatch sample_env (Some "w-1") (FetchResponds sample_limited_response)
                   watching_session) = Ok j ->
        activeWatchers
          (final (unwatch sample_env (Some "w-1") (FetchResponds sample_limited_response)
                    watching_session))
        = delete (Some "w-1") (activeWatchers watching_session))
  /\ (forall e,
        outcome (unwatch sample_env (Some "w-1") (FetchResponds sample_limited_response)
                   watching_session) = Throw e ->
        activeWatchers
          (final (unwatch sample_env (Some "w-1") (FetchResponds sample_limited_response)
                    watching_session))
        = activeWatchers watching_session).
Proof.
  apply (unwatch_registry sample_env (FetchResponds sample_limited_response) "w-1"
           watching_session); [reflexivity | discriminate].
Defined.

(** The run of [watch] once its two validations are passed: the log
    line, then the request, then the registry update if it returned. *)
Lemma watch_valid_run env now options fo s :
  isConnected s = true ->
  truthy (streamUrl options) || truthy (deviceId options) || truthy (businessId options) = true ->
  is_webhook (watch_notification options (socket_connected s))
  && negb (truthy (webhookUrl (watch_notification options (socket_connected s)))) = false ->
  watch env now options fo s
  = bind (console LLog "Watch request:")
      (fun _ =>
         let! response :=
           _request env "POST" (fst (watch_target now options))
             (Some (with_notification (snd (watch_target now options))
                      (watch_notification options (socket_connected s)))) fo in
         modify (fun s =>
           set_activeWatchers
             (<[j_watcherId response :=
                  mkWatcher (j_watcherId response) (j_type response) (j_entityId response) now]>
                (activeWatchers s)) s) ;;;
         ret response) s.
Proof.
  intros Hc Ht Hw. unfold watch. rewrite (ensure_on _ s Hc).
  replace (negb (truthy (streamUrl options)) && negb (truthy (deviceId options))
           && negb (truthy (businessId options))) with false
    by (destruct (truthy (streamUrl options)), (truthy (deviceId options)),
          (truthy (businessId options)); cbn in Ht |- *; congruence).
  destruct (watch_target now options) as [endpoint payload0].
  rewrite bind_get, Hw. reflexivity.
Qed.

(** X6. A [watch] that passes its validations on a connected session
    sends one POST to the endpoint of its target, with the notification
    settings in the payload ([method: "socket"] by default when the stream
    is up).  On a 2xx response it returns the body and records the watcher
    under [response.watcherId], leaving the other entries alone; an
    [unwatch] of that id that succeeds then gives back the registry as it
    was before the [watch], if the id was new. *)
Theorem watch_registers (env : Env) (now : string) (options : WatchOptions)
    (r : Response) (j : Json) (s : Session) :
  isConnected s = true ->
  truthy (streamUrl options) || truthy (deviceId options) || truthy (businessId options) = true ->
  is_webhook (watch_notification options (socket_connected s))
  && negb (truthy (webhookUrl (watch_notification options (socket_connected s)))) = false ->
  response_ok r = true ->
  json r = Ok j ->
  let w := watch env now options (FetchResponds r) s in
  outcome w = Ok j
  /\ List.filter is_fetch (effects w)
     = [EFetch "POST" (baseUrl (config s) +:+ fst (watch_target now options))
          (Some (with_notification (snd (watch_target now options))
                   (watch_notification options (socket_connected s))))]
  /\ (socket_connected s = true -> notificationSettings options = None ->
      method (watch_notification options (socket_connected s)) = Some "socket")
  /\ activeWatchers (final w) !! j_watcherId j
     = Some (mkWatcher (j_watcherId j) (j_type j) (j_entityId j) now)
  /\ (forall k, k <> j_watcherId j -> activeWatchers (final w) !! k = activeWatchers s !! k)
  /\ (forall id_ r' j', j_watcherId j = Some id_ -> id_ <> EmptyString ->
        activeWatchers s !! Some id_ = None ->
        response_ok r' = true -> json r' = Ok j' ->
        activeWatchers (final (unwatch env (Some id_) (FetchResponds r') (final w)))
        = activeWatchers s).
Proof.
  intros Hc Ht Hw Hok Hj w.
  assert (Hrun : w = mkRun
            (set_activeWatchers
               (<[j_watcherId j := mkWatcher (j_watcherId j) (j_type j) (j_entityId j) now]>
                  (activeWatchers s))
               (set_rateLimit (track_rate_limits env r (rateLimit s)) s))
            [EConsole LLog "Watch request:"; EConsole LLog "API Request:";
             EFetch "POST" (baseUrl (config s) +:+ fst (watch_target now options))
               (Some (with_notification (snd (watch_target now options))
                        (watch_notification options (socket_connected s))));
             EConsole LLog "API Response:"]
            (Ok j)).
  { subst w. rewrite (watch_valid_run env now options _ s Hc Ht Hw).
    unfold console. rewrite bind_emit.
    rewrite (bind_run _ _ _ _ _ _ (request_ok env "POST" _ _ r j s Hok Hj)).
    rewrite bind_modify. reflexivity. }
  rewrite Hrun. cbn [final outcome effects].
  split; [reflexivity|]. split; [reflexivity|].
  split; [intros Hup Hns; unfold watch_notification; rewrite Hns, Hup; reflexivity|].
  split; [apply lookup_insert_eq|].
  split; [intros k Hk; apply lookup_insert_ne; congruence|].
  intros id_ r' j' Hid Hne Hnew Hok' Hj'.
  destruct (unwatch_ok env id_ r' j'
              (set_activeWatchers
                 (<[j_watcherId j := mkWatcher (j_watcherId j) (j_type j) (j_entityId j) now]>
                    (activeWatchers s))
                 (set_rateLimit (track_rate_limits env r (rateLimit s)) s))
              Hc Hne Hok' Hj') as (_ & Hreg).
  rewrite Hreg. cbn [activeWatchers set_activeWatchers]. rewrite Hid.
  apply delete_insert_id. exact Hnew.
Qed.

(** A response announcing the watcher ["w-1"]. *)
Definition sample_watch_response : Response :=
  mkResponse 201 "Created" ∅
    (Ok (mkJson None None None (Some "w-1") (Some "device") (Some "d1"))).

Lemma watch_registers_witness :
  let w := watch sample_env "2024-01-01T00:00:00.000Z" (device_only "d1")
             (FetchResponds sample_watch_response) streaming_session in
  let j := mkJson None None None (Some "w-1") (Some "device") (Some "d1") in
  outcome w = Ok j
  /\ List.filter is_fetch (effects w)
     = [EFetch "POST"
          (baseUrl (config streaming_session)
           +:+ fst (watch_target "2024-01-01T00:00:00.000Z" (device_only "d1")))
          (Some (with_notification
                   (snd (watch_target "2024-01-01T00:00:00.000Z" (device_only "d1")))
                   (watch_notification (device_only "d1")
                      (socket_connected streaming_session))))]
  /\ (socket_connected streaming_session = true ->
      notificationSettings (device_only "d1") = None ->
      method (watch_notification (device_only "d1") (socket_connected streaming_session))
      = Some "socket")
  /\ activeWatchers (final w) !! j_watcherId j
     = Some (mkWatcher (j_watcherId j) (j_type j) (j_entityId j) "2024-01-01T00:00:00.000Z")
  /\ (forall k, k <> j_watcherId j ->
        activeWatchers (final w) !! k = activeWatchers streaming_session !! k)
  /\ (forall id_ r' j', j_watcherId j = Some id_ -> id_ <> EmptyString ->
        activeWatchers streaming_session !! Some id_ = None ->
        response_ok r' = true -> json r' = Ok j' ->
        activeWatchers (final (unwatch sample_env (Some id_) (FetchResponds r') (final w)))
        = activeWatchers streaming_session).
Proof.
  apply (watch_registers sample_env "2024-01-01T00:00:00.000Z" (device_only "d1")
           sample_watch_response
           (mkJson None None None (Some "w-1") (Some "device") (Some "d1"))
           streaming_session); reflexivity.
Defined.

Lemma watch_outside_registry env now options fo :
  preserves outside_registry (watch env now options fo).
Proof.
  unfold watch, _ensureConnected. frame. apply _request_outside_registry.
Qed.

(** X7. Whatever its arguments and however the request ends, [watch]
    changes nothing in the session but the watch registry and the
    rate-limit snapshot; it changes the registry only when it returns, by
    the one entry under [response.watcherId]; a [watch] that throws (a
    validation, the connected check, or the request) leaves the registry
    as it was. *)
Theorem watch_failure_keeps_registry (env : Env) (now : string) (options : WatchOptions)
    (fo : FetchOutcome) (s : Session) :
  outside_registry (final (watch env now options fo s)) = outside_registry s
  /\ (forall e, outcome (watch env now options fo s) = Throw e ->
        activeWatchers (final (watch env now options fo s)) = activeWatchers s)
  /\ (forall j, outcome (watch env now options fo s) = Ok j ->
        activeWatchers (final (watch env now options fo s))
        = <[j_watcherId j := mkWatcher (j_watcherId j) (j_type j) (j_entityId j) now]>
            (activeWatchers s)).
Proof.
  split; [apply watch_outside_registry|].
  destruct (isConnected s) eqn:Hc.
  2:{ unfold watch. rewrite (ensure_off _ s Hc).
      split; [reflexivity | discriminate]. }
  destruct (truthy (streamUrl options) || truthy (deviceId options)
            || truthy (businessId options)) eqn:Ht.
  2:{ unfold watch. rewrite (ensure_on _ s Hc).
      replace (negb (truthy (streamUrl options)) && negb (truthy (deviceId options))
               && negb (truthy (businessId options))) with true
        by (destruct (truthy (streamUrl options)), (truthy (deviceId options)),
              (truthy (businessId options)); cbn in Ht |- *; congruence).
      split; [reflexivity | discriminate]. }
  destruct (is_webhook (watch_notification options (socket_connected s))
            && negb (truthy (webhookUrl (watch_notification options (socket_connected s)))))
    eqn:Hw.
  { unfold watch. rewrite (ensure_on _ s Hc).
    replace (negb (truthy (streamUrl options)) && negb (truthy (deviceId options))
             && negb (truthy (businessId options))) with false
      by (destruct (truthy (streamUrl options)), (truthy (deviceId options)),
            (truthy (businessId options)); cbn in Ht |- *; congruence).
    destruct (watch_target now options) as [endpoint payload0].
    rewrite bind_get, Hw. split; [reflexivity | discriminate]. }
  rewrite (watch_valid_run env now options fo s Hc Ht Hw).
  unfold console. rewrite bind_emit. cbn [final outcome effects].
  match goal with
  | |- context [bind (_request env ?m ?p ?d fo) ?k s] =>
      pose proof (_request_registry env m p d fo s) as Hreg;
      destruct (outcome (_request env m p d fo s)) as [j|e] eqn:E;
      [rewrite (bind_ok _ k _ _ E) | rewrite (bind_throw _ k _ _ E)]
  end.
  - rewrite bind_modify. cbn [ret final outcome effects set_activeWatchers activeWatchers].
    split; [discriminate|]. intros j' Hj'. injection Hj' as <-. rewrite Hreg. reflexivity.
  - cbn [final outcome effects]. split; [intros _ _; exact Hreg | discriminate].
Qed.

(** ** The cache of watchers *)

(** The registry after the loop of [getActiveWatchers] over [ws]. *)
Definition cache_all (ws : list Watcher) (m : gmap (option string) Watcher) :
    gmap (option string) Watcher :=
  foldl (fun m w => <[w_id w := w]> m) m ws.

Lemma cache_all_notin ws : forall m k,
  k ∉ w_id <$> ws -> cache_all ws m !! k = m !! k.
Proof.
  induction ws as [|w ws IH]; intros m k Hk; [reflexivity|].
  rewrite fmap_cons in Hk. apply not_elem_of_cons in Hk as [Hne Hk].
  cbn [cache_all foldl]. fold (cache_all ws (<[w_id w := w]> m)).
  rewrite (IH _ _ Hk). apply lookup_insert_ne. congruence.
Qed.

Lemma cache_all_in ws : forall m w,
  NoDup (w_id <$> ws) -> w ∈ ws -> cache_all ws m !! w_id w = Some w.
Proof.
  induction ws as [|w0 ws IH]; intros m w Hnd Hin; [inversion Hin|].
  rewrite fmap_cons in Hnd. apply NoDup_cons in Hnd as [Hfresh Hnd].
  cbn [cache_all foldl]. fold (cache_all ws (<[w_id w0 := w0]> m)).
  apply elem_of_cons in Hin as [->|Hin].
  - rewrite (cache_all_notin ws _ _ Hfresh). apply lookup_insert_eq.
  - apply IH; assumption.
Qed.

Lemma cache_all_some ws : forall m k w,
  cache_all ws m !! k = Some w -> (w ∈ ws /\ w_id w = k) \/ m !! k = Some w.
Proof.
  induction ws as [|w0 ws IH]; intros m k w H; [right; exact H|].
  cbn [cache_all foldl] in H. fold (cache_all ws (<[w_id w0 := w0]> m)) in H.
  destruct (IH _ _ _ H) as [[Hin Hid]|Hm].
  - left. split; [apply elem_of_cons; right; exact Hin | exact Hid].
  - destruct (decide (w_id w0 = k)) as [Heq|Hne].
    + subst k. rewrite lookup_insert_eq in Hm. injection Hm as <-.
      left. split; [apply elem_of_cons; left; reflexivity | reflexivity].
    + rewrite lookup_insert_ne in Hm by exact Hne. right. exact Hm.
Qed.

Lemma cache_loop_run ws : forall s,
  outcome (forEach (fun w => modify (fun s =>
             set_activeWatchers (<[w_id w := w]> (activeWatchers s)) s)) ws s) = Ok tt
  /\ effects (forEach (fun w => modify (fun s =>
                set_activeWatchers (<[w_id w := w]> (activeWatchers s)) s)) ws s) = []
  /\ activeWatchers (final (forEach (fun w => modify (fun s =>
                       set_activeWatchers (<[w_id w := w]> (activeWatchers s)) s)) ws s))
     = cache_all ws (activeWatchers s)
  /\ outside_registry (final (forEach (fun w => modify (fun s =>
                         set_activeWatchers (<[w_id w := w]> (activeWatchers s)) s)) ws s))
     = outside_registry s.
Proof.
  induction ws as [|w ws IH]; intros s; [repeat split|].
  cbn [forEach]. rewrite bind_modify.
  destruct (IH (set_activeWatchers (<[w_id w := w]> (activeWatchers s)) s))
    as (Ho & He & Ha & Hf).
  rewrite Ho, He, Ha, Hf. repeat split.
Qed.

(** X8. [getActiveWatchers] on a connected session, answered by a 2xx
    response: when the body has a list of watchers, the list is returned
    and the registry is replaced by it, keyed by [id]: the ids of the
    list are the keys, each entry comes from the list, and with distinct
    ids each watcher is found under its id; entries of before are gone.
    When the body has no such list the call throws with the registry
    already emptied.  When [fetch] rejects the registry is not touched.
    The rest of the session, the rate-limit snapshot apart, stays as it
    was. *)
Theorem getActiveWatchers_replaces_registry (env : Env)
    (watchers : Json -> option (list Watcher)) (r : Response) (j : Json) (s : Session) :
  isConnected s = true ->
  response_ok r = true ->
  json r = Ok j ->
  let g := getActiveWatchers env watchers (FetchResponds r) s in
  match watchers j with
  | Some ws =>
      outcome g = Ok ws
      /\ (forall k, k ∉ w_id <$> ws -> activeWatchers (final g) !! k = None)
      /\ (forall k w, activeWatchers (final g) !! k = Some w -> w ∈ ws /\ w_id w = k)
      /\ (NoDup (w_id <$> ws) ->
          forall w, w ∈ ws -> activeWatchers (final g) !! w_id w = Some w)
  | None =>
      outcome g = Throw "response.watchers is not iterable"
      /\ activeWatchers (final g) = ∅
  end
  /\ outside_registry (final g) = outside_registry s
  /\ (forall msg,
        activeWatchers (final (getActiveWatchers env watchers (FetchRejects msg) s))
        = activeWatchers s).
Proof.
  intros Hc Hok Hj g.
  split; [|split].
  - subst g. unfold getActiveWatchers. rewrite (ensure_on _ s Hc).
    rewrite (bind_run _ _ _ _ _ _ (request_ok env "GET" "/events/watchers" None r j s Hok Hj)).
    rewrite bind_modify. cbn [final outcome effects].
    destruct (watchers j) as [ws|]; [|split; reflexivity].
    match goal with
    | |- context [bind (forEach ?f ws) _ ?s'] => destruct (cache_loop_run ws s') as (Ho & He & Ha & _)
    end.
    rewrite (bind_ok _ _ _ _ Ho). cbn [ret final outcome effects]. rewrite Ha.
    cbn [activeWatchers set_activeWatchers].
    split; [reflexivity|]. split; [|split].
    + intros k Hk. rewrite (cache_all_notin ws _ _ Hk). apply lookup_empty.
    + intros k w H. destruct (cache_all_some ws _ _ _ H) as [Hin|Hm]; [exact Hin|].
      rewrite lookup_empty in Hm. discriminate.
    + intros Hnd w Hin. apply cache_all_in; assumption.
  - subst g. unfold getActiveWatchers. rewrite (ensure_on _ s Hc).
    rewrite (bind_run _ _ _ _ _ _ (request_ok env "GET" "/events/watchers" None r j s Hok Hj)).
    rewrite bind_modify. cbn [final outcome effects].
    destruct (watchers j) as [ws|]; [|reflexivity].
    match goal with
    | |- context [bind (forEach ?f ws) _ ?s'] => destruct (cache_loop_run ws s') as (Ho & _ & _ & Hf)
    end.
    rewrite (bind_ok _ _ _ _ Ho). cbn [ret final outcome effects]. rewrite Hf. reflexivity.
  - intros msg. unfold getActiveWatchers. rewrite (ensure_on _ s Hc).
    rewrite (bind_throw _ _ _ (rethrown (baseUrl (config s) +:+ "/events/watchers") msg))
      by (rewrite _request_rejected; reflexivity).
    cbn [final].
    apply _request_registry.
Qed.

(** A server that reports two watchers. *)
Definition sample_watchers (j : Json) : option (list Watcher) :=
  Some [mkWatcher (Some "w-1") (Some "device") (Some "d1") "2024-01-01";
        mkWatcher (Some "w-2") (Some "stream") (Some "s1") "2024-01-02"].

Lemma getActiveWatchers_replaces_registry_witness :
  let g := getActiveWatchers sample_env sample_watchers (FetchResponds sample_validation)
             streaming_session in
  match sample_watchers (mkJson None (Some "user-1") (Some "org-1") None None None) with
  | Some ws =>
      outcome g = Ok ws
      /\ (forall k, k ∉ w_id <$> ws -> activeWatchers (final g) !! k = None)
      /\ (forall k w, activeWatchers (final g) !! k = Some w -> w ∈ ws /\ w_id w = k)
      /\ (NoDup (w_id <$> ws) ->
          forall w, w ∈ ws -> activeWatchers (final g) !! w_id w = Some w)
  | None =>
      outcome g = Throw "response.watchers is not iterable"
      /\ activeWatchers (final g) = ∅
  end
  /\ outside_registry (final g) = outside_registry streaming_session
  /\ (forall msg,
        activeWatchers (final (getActiveWatchers sample_env sample_watchers (FetchRejects msg)
                                 streaming_session))
        = activeWatchers streaming_session).
Proof.
  apply (getActiveWatchers_replaces_registry sample_env sample_watchers sample_validation
           (mkJson None (Some "user-1") (Some "org-1") None None None) streaming_session);
    reflexivity.
Defined.

(** ** More on [connect] *)

(** The ways the validation request can fail: [fetch] rejects, the
    response is not 2xx, or its body is not JSON. *)
Definition validation_fails (fo : FetchOutcome) : bool :=
  match fo with
  | FetchRejects _ => true
  | FetchResponds r =>
      negb (response_ok r) || match json r with Ok _ => false | Throw _ => true end
  end.

Lemma validation_fails_throws env meth path data fo s :
  validation_fails fo = true ->
  exists e, outcome (_request env meth path data fo s) = Throw e.
Proof.
  destruct fo as [msg|r]; cbn [validation_fails]; intros H.
  - eexists. rewrite _request_rejected. reflexivity.
  - destruct (response_ok r) eqn:Hok; cbn [negb orb] in H.
    + destruct (json r) as [j|e] eqn:Hj; [discriminate|].
      eexists. apply (_request_bad_json env meth path data r e s Hok Hj).
    + eexists. apply (_request_not_ok env meth path data r s Hok).
Qed.

Lemma connect_failed_run {A} e s :
  @connect_failed A e s
  = mkRun (set_isConnecting false (set_isConnected false s)) []
          (Throw ("Failed to connect to Cybernate: " +:+ e)).
Proof. reflexivity. Qed.

(** The run of [connect] when the validation request throws [e]. *)
Lemma connect_failure_run env fo io s e :
  isConnecting s = false ->
  outcome (_request env "GET" "/auth/validate" None fo (set_isConnecting true s)) = Throw e ->
  connect env fo io s
  = mkRun (set_isConnecting false (set_isConnected false
             (final (_request env "GET" "/auth/validate" None fo (set_isConnecting true s)))))
          (effects (_request env "GET" "/auth/validate" None fo (set_isConnecting true s)))
          (Throw ("Failed to connect to Cybernate: " +:+ e)).
Proof.
  intros Hs He. unfold connect. rewrite bind_get, Hs, bind_modify.
  rewrite (try_catch_throw _ _ _ e) by (rewrite (bind_throw _ _ _ _ He); reflexivity).
  rewrite (bind_throw _ _ _ _ He). cbn [final outcome effects].
  rewrite connect_failed_run. cbn [final outcome effects].
  rewrite app_nil_r. reflexivity.
Qed.

(** What a failed [connect] leaves of the session. *)
Lemma connect_failure_frame env fo io s e :
  isConnecting s = false ->
  outcome (_request env "GET" "/auth/validate" None fo (set_isConnecting true s)) = Throw e ->
  attempts (effects (connect env fo io s)) = 0
  /\ (config (final (connect env fo io s)), eventListeners (final (connect env fo io s)),
      activeWatchers (final (connect env fo io s)), socket (final (connect env fo io s)),
      reconnectCount (final (connect env fo io s)), user (final (connect env fo io s)),
      organization (final (connect env fo io s)))
     = (config s, eventListeners s, activeWatchers s, socket s, reconnectCount s,
        user s, organization s).
Proof.
  intros Hs He. rewrite (connect_failure_run env fo io s e Hs He).
  cbn [final outcome effects].
  destruct (_request_frame env "GET" "/auth/validate" None fo (set_isConnecting true s))
    as (Hout & _ & Hatt).
  split; [exact Hatt|].
  set (s' := final (_request env "GET" "/auth/validate" None fo (set_isConnecting true s))) in *.
  unfold outside_rate_limit in Hout. cbn in Hout.
  injection Hout as H1 H2 H3 H4 H5 H6 H7 H8 H9. cbn. congruence.
Qed.

(** X9. A [connect()] whose validation request fails throws
    ["Failed to connect to Cybernate: ..."] and leaves the session
    neither connected nor connecting; it starts no stream set-up and
    leaves the socket, the identity, the listeners, the registry and the
    reconnect counter as they were. *)
Theorem connect_validation_failure (env : Env) (fo : FetchOutcome) (io : IoEnv)
    (s : Session) :
  isConnecting s = false ->
  validation_fails fo = true ->
  (exists e, outcome (connect env fo io s) = Throw ("Failed to connect to Cybernate: " +:+ e))
  /\ isConnected (final (connect env fo io s)) = false
  /\ isConnecting (final (connect env fo io s)) = false
  /\ attempts (effects (connect env fo io s)) = 0
  /\ (config (final (connect env fo io s)), eventListeners (final (connect env fo io s)),
      activeWatchers (final (connect env fo io s)), socket (final (connect env fo io s)),
      reconnectCount (final (connect env fo io s)), user (final (connect env fo io s)),
      organization (final (connect env fo io s)))
     = (config s, eventListeners s, activeWatchers s, socket s, reconnectCount s,
        user s, organization s).
Proof.
  intros Hs Hfail.
  destruct (validation_fails_throws env "GET" "/auth/validate" None fo
              (set_isConnecting true s) Hfail) as [e He].
  destruct (connect_failure_frame env fo io s e Hs He) as (Hatt & Hrest).
  split; [|split; [|split; [|split]]]; [| | | exact Hatt | exact Hrest];
    rewrite (connect_failure_run env fo io s e Hs He);
    [eexists; reflexivity | reflexivity | reflexivity].
Qed.

Lemma connect_validation_failure_witness :
  (exists e, outcome (connect sample_env (FetchRejects "offline") (IoOpens HsAck)
                        sample_session)
             = Throw ("Failed to connect to Cybernate: " +:+ e))
  /\ isConnected (final (connect sample_env (FetchRejects "offline") (IoOpens HsAck)
                           sample_session)) = false
  /\ isConnecting (final (connect sample_env (FetchRejects "offline") (IoOpens HsAck)
                            sample_session)) = false
  /\ attempts (effects (connect sample_env (FetchRejects "offline") (IoOpens HsAck)
                          sample_session)) = 0
  /\ (config (final (connect sample_env (FetchRejects "offline") (IoOpens HsAck)
                       sample_session)),
      eventListeners (final (connect sample_env (FetchRejects "offline") (IoOpens HsAck)
                               sample_session)),
      activeWatchers (final (connect sample_env (FetchRejects "offline") (IoOpens HsAck)
                               sample_session)),
      socket (final (connect sample_env (FetchRejects "offline") (IoOpens HsAck)
                       sample_session)),
      reconnectCount (final (connect sample_env (FetchRejects "offline") (IoOpens HsAck)
                               sample_session)),
      user (final (connect sample_env (FetchRejects "offline") (IoOpens HsAck)
                     sample_session)),
      organization (final (connect sample_env (FetchRejects "offline") (IoOpens HsAck)
                             sample_session)))
     = (config sample_session, eventListeners sample_session, activeWatchers sample_session,
        socket sample_session, reconnectCount sample_session, user sample_session,
        organization sample_session).
Proof.
  apply (connect_validation_failure sample_env (FetchRejects "offline") (IoOpens HsAck)
           sample_session); reflexivity.
Defined.

(** [connect_validated] in terms of the guarded, caught set-up in it. *)
Lemma connect_validated_run env io j s :
  let W := when (enableWebSocket (config s) && _socketIsEnabled env)
             (try_catch (_setupWebSocket env io)
                (fun e => console LWarn
                   ("WebSocket connection failed, falling back to HTTP-only mode: " +:+ e)))
             (set_identity (j_user j) (j_organization j) s) in
  connect_validated env io j s
  = mkRun (set_isConnecting false (set_isConnected true (final W)))
          (effects W)
          (Ok (mkConnectResult true (user (final W)) (organization (final W))
                 (socket_connected (final W)))).
Proof.
  cbv zeta. unfold connect_validated. rewrite bind_modify, bind_get.
  change (enableWebSocket (config (set_identity (j_user j) (j_organization j) s)))
    with (enableWebSocket (config s)).
  match goal with
  | |- bind (when ?b ?m) ?k ?s' = _ =>
      assert (HW : outcome (when b m s') = Ok tt)
        by (apply returns_unit, returns_when, returns_try_catch; intro; apply returns_console);
      rewrite (bind_ok _ k _ _ HW)
  end.
  rewrite bind_modify, bind_modify, bind_get. cbn [ret final outcome effects].
  rewrite app_nil_r. reflexivity.
Qed.

(** The run of [connect] when validation succeeds. *)
Lemma connect_validated_through env io r j s :
  isConnecting s = false ->
  response_ok r = true ->
  json r = Ok j ->
  connect env (FetchResponds r) io s
  = let c := connect_validated env io j
               (set_rateLimit (track_rate_limits env r (rateLimit s)) (set_isConnecting true s)) in
    mkRun (final c)
          ([EConsole LLog "API Request:";
            EFetch "GET" (baseUrl (config s) +:+ "/auth/validate") None;
            EConsole LLog "API Response:"] ++ effects c)%list
          (outcome c).
Proof.
  intros Hs Hok Hj. cbv zeta. unfold connect. rewrite bind_get, Hs, bind_modify.
  pose proof (request_ok env "GET" "/auth/validate" None r j (set_isConnecting true s) Hok Hj)
    as Hr.
  destruct (connect_validated_done env io j
              (set_rateLimit (track_rate_limits env r (rateLimit s)) (set_isConnecting true s)))
    as ([res Hres] & _).
  rewrite (try_catch_ok _ _ _ res).
  - rewrite (bind_run _ _ _ _ _ _ Hr). reflexivity.
  - rewrite (bind_run _ _ _ _ _ _ Hr). cbn [outcome]. exact Hres.
Qed.

(** X10. On a session with the stream disabled, or in a host without
    socket.io, [connect()] never starts a stream set-up and leaves the
    socket and the reconnect counter alone, however the validation ends;
    when the validation succeeds it returns with the session connected
    and [websocketEnabled] reporting the socket as it was. *)
Theorem connect_without_stream (env : Env) (fo : FetchOutcome) (io : IoEnv) (s : Session) :
  isConnecting s = false ->
  enableWebSocket (config s) && _socketIsEnabled env = false ->
  attempts (effects (connect env fo io s)) = 0
  /\ socket (final (connect env fo io s)) = socket s
  /\ reconnectCount (final (connect env fo io s)) = reconnectCount s
  /\ (forall r j, fo = FetchResponds r -> response_ok r = true -> json r = Ok j ->
        outcome (connect env fo io s)
        = Ok (mkConnectResult true (j_user j) (j_organization j) (socket_connected s))
        /\ isConnected (final (connect env fo io s)) = true).
Proof.
  intros Hs Hoff.
  assert (Hgood : forall r j, fo = FetchResponds r -> response_ok r = true -> json r = Ok j ->
            connect env fo io s
            = mkRun (set_isConnecting false (set_isConnected true
                       (set_identity (j_user j) (j_organization j)
                          (set_rateLimit (track_rate_limits env r (rateLimit s))
                             (set_isConnecting true s)))))
                    [EConsole LLog "API Request:";
                     EFetch "GET" (baseUrl (config s) +:+ "/auth/validate") None;
                     EConsole LLog "API Response:"]
                    (Ok (mkConnectResult true (j_user j) (j_organization j)
                           (socket_connected s)))).
  { intros r j -> Hok Hj. rewrite (connect_validated_through env io r j s Hs Hok Hj).
    cbv zeta. rewrite connect_validated_run. cbv zeta.
    change (enableWebSocket (config (set_rateLimit _ _))) with (enableWebSocket (config s)).
    rewrite Hoff. reflexivity. }
  destruct (validation_fails fo) eqn:Hv.
  - destruct (validation_fails_throws env "GET" "/auth/validate" None fo
                (set_isConnecting true s) Hv) as [e He].
    destruct (connect_failure_frame env fo io s e Hs He) as (Ha & Hrest).
    injection Hrest as H1 H2 H3 H4 H5 H6 H7.
    split; [exact Ha|]. split; [exact H4|]. split; [exact H5|].
    intros r j -> Hok Hj. cbn [validation_fails] in Hv. rewrite Hok, Hj in Hv. discriminate.
  - destruct fo as [msg|r]; [discriminate|]. cbn [validation_fails] in Hv.
    destruct (response_ok r) eqn:Hok; [|discriminate].
    destruct (json r) as [j|e] eqn:Hj; [|discriminate].
    rewrite (Hgood r j eq_refl Hok Hj). cbn [final outcome effects].
    split; [reflexivity|]. split; [reflexivity|]. split; [reflexivity|].
    intros r' j' Heq Hok' Hj'. injection Heq as <-.
    assert (j' = j) by congruence. subst j'. split; reflexivity.
Qed.

Lemma connect_without_stream_witness :
  attempts (effects (connect sample_env (FetchResponds sample_validation) (IoOpens HsAck)
                       http_only_session)) = 0
  /\ socket (final (connect sample_env (FetchResponds sample_validation) (IoOpens HsAck)
                      http_only_session)) = socket http_only_session
  /\ reconnectCount (final (connect sample_env (FetchResponds sample_validation)
                              (IoOpens HsAck) http_only_session))
     = reconnectCount http_only_session
  /\ (forall r j, FetchResponds sample_validation = FetchResponds r ->
        response_ok r = true -> json r = Ok j ->
        outcome (connect sample_env (FetchResponds sample_validation) (IoOpens HsAck)
                   http_only_session)
        = Ok (mkConnectResult true (j_user j) (j_organization j)
                (socket_connected http_only_session))
        /\ isConnected (final (connect sample_env (FetchResponds sample_validation)
                                 (IoOpens HsAck) http_only_session)) = true).
Proof.
  apply (connect_without_stream sample_env (FetchResponds sample_validation) (IoOpens HsAck)
           http_only_session); reflexivity.
Defined.

(** X11. When validation succeeds and the stream set-up goes through,
    [connect()] returns [websocketEnabled: true] with the identity of the
    response, after exactly one set-up; the session is connected, not
    connecting, its socket connected and the reconnect counter at 0. *)
Theorem connect_opens_stream (env : Env) (io : IoEnv) (r : Response) (j : Json)
    (s : Session) :
  isConnecting s = false ->
  response_ok r = true ->
  json r = Ok j ->
  enableWebSocket (config s) = true ->
  _socketIsEnabled env = true ->
  setup_fails (reconnectCount s) io = false ->
  let c := connect env (FetchResponds r) io s in
  outcome c = Ok (mkConnectResult true (j_user j) (j_organization j) true)
  /\ attempts (effects c) = 1
  /\ socket_connected (final c) = true
  /\ reconnectCount (final c) = 0
  /\ isConnected (final c) = true
  /\ isConnecting (final c) = false.
Proof.
  intros Hs Hok Hj Hen Hav Hack c. subst c.
  rewrite (connect_validated_through env io r j s Hs Hok Hj). cbv zeta.
  rewrite connect_validated_run. cbv zeta.
  change (enableWebSocket (config (set_rateLimit _ _))) with (enableWebSocket (config s)).
  rewrite Hen, Hav. cbn [andb when].
  change (set_identity (j_user j) (j_organization j) _) with (validated_session env r j s).
  destruct (_setupWebSocket_acks env io (validated_session env r j s) Hav Hack)
    as (Ho & Hcnt & Hup).
  destruct (outside_stream_inv _ _ (_setupWebSocket_outside env io (validated_session env r j s)))
    as (_ & _ & _ & _ & _ & Hu & Horg & _).
  change (user (validated_session env r j s)) with (j_user j) in Hu.
  change (organization (validated_session env r j s)) with (j_organization j) in Horg.
  rewrite (try_catch_ok _ _ _ tt Ho). cbn [final outcome effects].
  rewrite Hu, Horg, Hup.
  split; [reflexivity|]. split.
  { rewrite attempts_app, _setupWebSocket_attempts. reflexivity. }
  split; [exact Hup|]. split; [exact Hcnt|]. split; reflexivity.
Qed.

Lemma connect_opens_stream_witness :
  let c := connect sample_env (FetchResponds sample_validation) (IoOpens HsAck)
             sample_session in
  outcome c = Ok (mkConnectResult true (Some "user-1") (Some "org-1") true)
  /\ attempts (effects c) = 1
  /\ socket_connected (final c) = true
  /\ reconnectCount (final c) = 0
  /\ isConnected (final c) = true
  /\ isConnecting (final c) = false.
Proof.
  apply (connect_opens_stream sample_env (IoOpens HsAck) sample_validation
           (mkJson None (Some "user-1") (Some "org-1") None None None) sample_session);
    reflexivity.
Defined.

(** ** The flag [isConnecting] *)


Section Quiet.
Context (p : Effect -> bool).








End Quiet.









(** ** [disconnect] against a call of [connect] in flight *)

(** X12. [disconnect()] called while a [connect()] awaits its validation
    clears [isConnecting] but does not cancel the call: a second
    [connect()] is accepted and sends a second validation request, and
    when the first validation succeeds the call in flight marks the
    session connected again. *)
Theorem disconnect_during_connect (env : Env) (io : IoEnv) (r : Response) (j : Json)
    (s : Session) :
  isConnecting s = false ->
  response_ok r = true ->
  json r = Ok j ->
  let s1 := final (connect_begin s) in
  let s2 := final (disconnect s1) in
  isConnecting s1 = true
  /\ isConnecting s2 = false
  /\ isConnected s2 = false
  /\ connect_begin s2
     = mkRun (set_isConnecting true s2)
             [EConsole LLog "API Request:";
              EFetch "GET" (baseUrl (config s) +:+ "/auth/validate") None]
             (Ok tt)
  /\ isConnected (final (connect_resume env (FetchResponds r) io s2)) = true
  /\ (exists res, outcome (connect_resume env (FetchResponds r) io s2) = Ok res).
Proof.
  intros Hs Hok Hj s1 s2.
  assert (H1 : s1 = set_isConnecting true s).
  { subst s1. rewrite connect_begin_run, Hs. reflexivity. }
  assert (H2 : isConnecting s2 = false /\ isConnected s2 = false /\ config s2 = config s).
  { subst s2. rewrite disconnect_final, H1. repeat split. }
  destruct H2 as (H2 & H3 & H4).
  split; [rewrite H1; reflexivity|]. split; [exact H2|]. split; [exact H3|].
  split; [rewrite connect_begin_run, H2, H4; reflexivity|].
  assert (Hr : request_resume env "/auth/validate" (FetchResponds r) s2
               = mkRun (set_rateLimit (track_rate_limits env r (rateLimit s2)) s2)
                       [EConsole LLog "API Response:"] (Ok j)).
  { rewrite request_resume_run.
    destruct (request_receive_run env r s2) as (_ & _ & Hrun).
    rewrite (try_catch_ok _ _ _ j); rewrite (Hrun j Hok Hj); reflexivity. }
  destruct (connect_validated_done env io j
              (set_rateLimit (track_rate_limits env r (rateLimit s2)) s2))
    as ([res Hres] & _ & Hconn).
  unfold connect_resume.
  rewrite (try_catch_ok _ _ _ res) by (rewrite (bind_run _ _ _ _ _ _ Hr); exact Hres).
  rewrite (bind_run _ _ _ _ _ _ Hr). cbn [final outcome effects].
  split; [exact Hconn | exists res; exact Hres].
Qed.

Lemma disconnect_during_connect_witness :
  let s1 := final (connect_begin sample_session) in
  let s2 := final (disconnect s1) in
  isConnecting s1 = true
  /\ isConnecting s2 = false
  /\ isConnected s2 = false
  /\ connect_begin s2
     = mkRun (set_isConnecting true s2)
             [EConsole LLog "API Request:";
              EFetch "GET" (baseUrl (config sample_session) +:+ "/auth/validate") None]
             (Ok tt)
  /\ isConnected (final (connect_resume sample_env (FetchResponds sample_validation)
                           (IoOpens HsAck) s2)) = true
  /\ (exists res, outcome (connect_resume sample_env (FetchResponds sample_validation)
                             (IoOpens HsAck) s2) = Ok res).
Proof.
  apply (disconnect_during_connect sample_env (IoOpens HsAck) sample_validation
           (mkJson None (Some "user-1") (Some "org-1") None None None) sample_session);
    reflexivity.
Defined.

(** ** Connection status *)

(** X13. Whatever the session was, after [disconnect()] the status
    reported by [getConnectionStatus()] is: not connected, stream down,
    reconnect counter 0, no active watcher; [websocketEnabled] still
    reports the configuration.  Reading the status changes nothing and
    has no effect. *)
Theorem status_after_disconnect (s : Session) :
  getConnectionStatus (final (disconnect s))
  = mkRun (final (disconnect s)) []
          (Ok (mkConnectionStatus false false (enableWebSocket (config s)) 0 0))
  /\ (forall s', final (getConnectionStatus s') = s' /\ effects (getConnectionStatus s') = []
                 /\ outcome (getConnectionStatus s')
                    = Ok (mkConnectionStatus (isConnected s') (socket_connected s')
                            (enableWebSocket (config s')) (reconnectCount s')
                            (size (activeWatchers s')))).
Proof.
  split.
  - unfold getConnectionStatus. rewrite bind_get. unfold id.
    rewrite disconnect_final. cbn [ret isConnected socket_connected socket config
      reconnectCount activeWatchers].
    rewrite map_size_empty. reflexivity.
  - intros s'. unfold getConnectionStatus. rewrite bind_get. repeat split.
Qed.

(** ** Listeners and the stream *)

(** X14. [on] with something that is not a function throws
    ["Callback must be a function"] and does nothing.  With a function,
    on a tag that is an own key of the table or that nothing answers for
    (every tag that is not the name of a member of [Object.prototype]),
    it does not throw; it starts one stream set-up exactly when the
    stream is enabled, socket.io is at hand and no socket is connected,
    whether or not the session is connected to the API, and a set-up that
    fails only gives a warning; it does not touch the watch registry or
    the connection flags.  On a name that only [Object.prototype] answers
    for it throws a [TypeError] before any set-up, the session left as it
    was. *)
Theorem on_starts_stream (env : Env) (io : IoEnv) (tag : string) (cb : CallbackRef)
    (s : Session) :
  on env io tag None s = mkRun s [] (Throw "Callback must be a function")
  /\ (inherited tag = false -> slot (eventListeners s) tag <> Inherited)
  /\ match slot (eventListeners s) tag with
     | Inherited =>
         on env io tag (Some cb) s
         = mkRun s [] (Throw "this.eventListeners[event].push is not a function")
     | _ =>
         outcome (on env io tag (Some cb) s) = Ok tt
         /\ attempts (effects (on env io tag (Some cb) s))
            = (if enableWebSocket (config s) && _socketIsEnabled env
                  && negb (socket_connected s)
               then 1 else 0)
         /\ (activeWatchers (final (on env io tag (Some cb) s)),
             isConnected (final (on env io tag (Some cb) s)),
             isConnecting (final (on env io tag (Some cb) s)))
            = (activeWatchers s, isConnected s, isConnecting s)
     end.
Proof.
  split; [reflexivity|]. split; [apply slot_plain|].
  assert (Hgood : slot (eventListeners s) tag <> Inherited ->
    outcome (on env io tag (Some cb) s) = Ok tt
    /\ attempts (effects (on env io tag (Some cb) s))
       = (if enableWebSocket (config s) && _socketIsEnabled env && negb (socket_connected s)
          then 1 else 0)
    /\ (activeWatchers (final (on env io tag (Some cb) s)),
        isConnected (final (on env io tag (Some cb) s)),
        isConnecting (final (on env io tag (Some cb) s)))
       = (activeWatchers s, isConnected s, isConnecting s)).
  { intros H. split; [apply on_returns, H|].
    rewrite (on_run env io tag cb s H).
    set (s1 := set_eventListeners _ s).
    rewrite !bind_get.
    change (enableWebSocket (config s1)) with (enableWebSocket (config s)).
    change (socket_connected s1) with (socket_connected s).
    destruct (enableWebSocket (config s) && _socketIsEnabled env
              && negb (socket_connected s)); [|split; reflexivity].
    cbn [when]. unfold try_catch.
    pose proof (_setupWebSocket_attempts env io s1) as Hn.
    destruct (outside_stream_inv _ _ (_setupWebSocket_outside env io s1))
      as (_ & _ & H3 & H4 & H5 & _).
    change (activeWatchers s1) with (activeWatchers s) in H3.
    change (isConnected s1) with (isConnected s) in H4.
    change (isConnecting s1) with (isConnecting s) in H5.
    destruct (outcome (_setupWebSocket env io s1));
      cbn [final outcome effects console emit];
      rewrite ?attempts_app, Hn, H3, H4, H5; split; reflexivity. }
  destruct (slot (eventListeners s) tag) eqn:E.
  - apply Hgood. discriminate.
  - apply on_inherited, E.
  - apply Hgood. discriminate.
Qed.

(** A session with three registrations under ["detection"], two of them
    of listener 7, and one under ["all"]. *)
Definition busy_session : Session :=
  set_eventListeners (<["all" := [9]]> {[ "detection" := [7; 8; 7] ]}) sample_session.

(** X15. What a later event reaches follows the table, for a tag other
    than ["all"] that is not the name of a member of [Object.prototype]:
    after [off(tag, cb)] an event of type [tag] calls the listeners of
    [tag] other than [cb], in their order, then those of ["all"]; after
    [on(tag, cb)] it calls [cb] last among the listeners of [tag], once
    more than before, then those of ["all"]. *)
Theorem dispatch_follows_table (env : Env) (io : IoEnv) (s : Session) (tag : string)
    (cb : CallbackRef) (ev : EventData) :
  or_default (eventType ev) "detection" = tag ->
  tag <> "all" ->
  inherited tag = false ->
  invocations (effects (_dispatchEvent env ev (final (off tag (Some cb) s))))
  = map (fun c => (c, ev))
        (filter (fun c => c ≠ cb) (listeners_of s tag) ++ listeners_of s "all")%list
  /\ invocations (effects (_dispatchEvent env ev (final (on env io tag (Some cb) s))))
     = map (fun c => (c, ev)) (listeners_of s tag ++ [cb] ++ listeners_of s "all")%list.
Proof.
  intros Htag Hall Hplain.
  assert (Hslot : forall s', slot (eventListeners s') (or_default (eventType ev) "detection")
                             <> Inherited)
    by (intros s'; rewrite Htag; apply slot_plain, Hplain).
  pose proof (slot_plain (eventListeners s) tag Hplain) as Hs.
  split.
  - destruct (_dispatchEvent_run env ev _ (Hslot (final (off tag (Some cb) s))))
      as (_ & _ & Hi).
    rewrite Hi, Htag. f_equal. f_equal.
    + unfold listeners_of. rewrite off_run.
      destruct (slot (eventListeners s) tag) as [cbs| |] eqn:E; [|congruence|].
      * apply slot_own in E. rewrite E. cbn [final eventListeners set_eventListeners].
        rewrite lookup_insert_eq. reflexivity.
      * assert (El : eventListeners s !! tag = None)
          by (apply slot_unowned; intros cbs; rewrite E; discriminate).
        cbn [final]. rewrite El. reflexivity.
    + unfold listeners_of. rewrite off_run.
      destruct (slot (eventListeners s) tag); [|congruence|reflexivity].
      cbn [final eventListeners set_eventListeners].
      rewrite lookup_insert_ne by congruence. reflexivity.
  - destruct (_dispatchEvent_run env ev _ (Hslot (final (on env io tag (Some cb) s))))
      as (_ & _ & Hi).
    rewrite Hi, Htag, List.app_assoc. f_equal. f_equal.
    + unfold listeners_of at 1.
      rewrite (on_eventListeners env io tag cb s Hs), lookup_insert_eq. reflexivity.
    + unfold listeners_of. rewrite (on_eventListeners env io tag cb s Hs).
      rewrite lookup_insert_ne by congruence. reflexivity.
Qed.

Lemma dispatch_follows_table_witness :
  invocations (effects (_dispatchEvent sample_env (mkEventData (Some "detection") "payload")
                          (final (off "detection" (Some 7) busy_session))))
  = map (fun c => (c, mkEventData (Some "detection") "payload"))
        (filter (fun c => c ≠ 7) (listeners_of busy_session "detection")
         ++ listeners_of busy_session "all")%list
  /\ invocations (effects (_dispatchEvent sample_env (mkEventData (Some "detection") "payload")
                             (final (on sample_env IoRequireThrows "detection" (Some 7)
                                       busy_session))))
     = map (fun c => (c, mkEventData (Some "detection") "payload"))
           (listeners_of busy_session "detection" ++ [7]
            ++ listeners_of busy_session "all")%list.
Proof.
  apply (dispatch_follows_table sample_env IoRequireThrows busy_session "detection" 7
           (mkEventData (Some "detection") "payload"));
    [reflexivity | discriminate | reflexivity].
Defined.

(** X16. Routing of the stream messages: a ['notification'] message
    reaches the listeners of ["notification"] and then those of ["all"],
    a ['system'] message those of ["system"] and then those of ["all"],
    whatever [eventType] the message carried, and the listeners are handed
    the message with [eventType] overwritten.  An ['event'] message whose
    [eventType] is ["all"] calls every listener of ["all"] twice. *)
Theorem stream_message_routing (env : Env) (s : Session) (d : EventData) :
  invocations (effects (on_notification env d s))
  = map (fun c => (c, mkEventData (Some "notification") (eventBody d)))
        (listeners_of s "notification" ++ listeners_of s "all")%list
  /\ invocations (effects (on_system env d s))
     = map (fun c => (c, mkEventData (Some "system") (eventBody d)))
           (listeners_of s "system" ++ listeners_of s "all")%list
  /\ (eventType d = Some "all" ->
      invocations (effects (on_event env d s))
      = map (fun c => (c, d)) (listeners_of s "all" ++ listeners_of s "all")%list).
Proof.
  split; [|split].
  - unfold on_notification.
    destruct (_dispatchEvent_run env (mkEventData (Some "notification") (eventBody d)) s)
      as (_ & _ & Hi); [apply slot_plain; reflexivity | exact Hi].
  - unfold on_system.
    destruct (_dispatchEvent_run env (mkEventData (Some "system") (eventBody d)) s)
      as (_ & _ & Hi); [apply slot_plain; reflexivity | exact Hi].
  - intros H. unfold on_event.
    destruct (_dispatchEvent_run env d s) as (_ & _ & Hi);
      [rewrite H; apply slot_plain; reflexivity | rewrite Hi, H; reflexivity].
Qed.

(** ** Reconnection and the socket *)

(** X17. The ['disconnect'] handler sets the reconnection timer only for
    the reason ["io server disconnect"] and only with auto-reconnect on,
    with the configured delay; for any other reason, and for the close
    made by [disconnect()] itself, no timer is set.  A drop of the stream
    leaves the reconnect counter as it is and no socket connected. *)
Theorem reconnect_only_on_server_disconnect (reason : string) (s : Session) :
  List.filter is_timeout (effects (stream_disconnected reason s))
  = (if String.eqb reason "io server disconnect" && autoReconnect (config s)
     then [ESetTimeout (reconnectDelay (config s))] else [])
  /\ List.filter is_timeout (effects (disconnect s)) = []
  /\ reconnectCount (final (stream_disconnected reason s)) = reconnectCount s
  /\ socket_connected (final (stream_disconnected reason s)) = false.
Proof.
  split; [|split; [|split]].
  - unfold stream_disconnected. rewrite bind_modify. unfold handle_disconnect, console.
    rewrite bind_emit, !bind_get. cbn [final outcome effects].
    replace (config (mark_connected false s)) with (config s)
      by (unfold mark_connected; destruct (socket s); reflexivity).
    destruct (String.eqb reason "io server disconnect" && autoReconnect (config s));
      reflexivity.
  - rewrite disconnect_effects. destruct (socket s) as [[url [|]]|]; reflexivity.
  - unfold stream_disconnected. rewrite bind_modify, handle_disconnect_final.
    unfold mark_connected. destruct (socket s); reflexivity.
  - unfold stream_disconnected. rewrite bind_modify, handle_disconnect_final.
    unfold mark_connected, socket_connected.
    destruct (socket s) eqn:E; cbn [socket set_socket connected]; rewrite ?E; reflexivity.
Qed.

(** X18. [_setupWebSocket] without socket.io, or with a [require] that
    throws, rejects before touching the socket.  A set-up that goes
    through first closes the socket there was, if any, then opens one to
    [<baseUrl>/events], and leaves that one, connected, in the session. *)
Theorem setup_replaces_socket (env : Env) (io : IoEnv) (s : Session) :
  (_socketIsEnabled env = false ->
   _setupWebSocket env io s
   = mkRun s [ESetupAttempt] (Throw "WebSocket not enabled or supported"))
  /\ (_socketIsEnabled env = true ->
      _setupWebSocket env IoRequireThrows s
      = mkRun s [ESetupAttempt]
              (Throw "socket.io-client package not found. Install with: npm install socket.io-client"))
  /\ (_socketIsEnabled env = true -> setup_fails (reconnectCount s) io = false ->
      socket (final (_setupWebSocket env io s))
      = Some (mkSocket (baseUrl (config s) +:+ "/events") true)
      /\ exists tail,
           effects (_setupWebSocket env io s)
           = (ESetupAttempt
              :: match socket s with
                 | Some k =>
                     ESocketDisconnect (sock_url k)
                     :: (if connected k
                         then [EConsole LLog
                                 "Disconnected from Cybernate events socket: io client disconnect"]
                         else [])
                 | None => []
                 end
              ++ ESocketOpen (baseUrl (config s) +:+ "/events") :: tail)%list).
Proof.
  split; [|split].
  - intros H. unfold _setupWebSocket. rewrite bind_emit, H. reflexivity.
  - intros H. unfold _setupWebSocket. rewrite bind_emit, H. reflexivity.
  - intros Hen Hack. destruct io as [| msg | h]; [discriminate | discriminate |].
    cbn [setup_fails] in Hack.
    unfold _setupWebSocket. rewrite bind_emit, Hen. cbn [negb final outcome effects].
    destruct s as [cfg el aw [[url [|]]|] ic ig n u o rl];
      cbn in Hack |- *;
      match goal with
      | |- context [handshake h ?s'] =>
          destruct (handshake_acks h s' eq_refl Hack) as (He & _ & Hsock)
      end;
      rewrite ?He; cbn in Hsock |- *; (split; [exact Hsock | eexists; reflexivity]).
Qed.

(** ** The constructor *)

(** X19. [new CybernateAI(key, options)] throws ["API key is required"]
    exactly for the empty key.  Otherwise the session is fresh (no
    listener, no watcher, no socket, not connected, counter 0), the base
    URL is not empty, and none of the three numeric settings is 0 or
    [NaN]: an option that is 0, [NaN] or missing is replaced by the
    default, any other number, negative or fractional too, is kept as
    given.  So [reconnectAttempts: 0] gives 5, while a negative
    [reconnectAttempts] is kept and no reconnect counter is ever below
    it.  Auto-reconnect and the stream are on unless the option is
    [false]. *)
Theorem constructor_defaults (key : string) (o : Options) :
  match constructor key o with
  | inl e => key = EmptyString /\ e = "API key is required"
  | inr s =>
      key <> EmptyString
      /\ apiKey (config s) = key
      /\ baseUrl (config s) <> EmptyString
      /\ number_truthy (timeout (config s)) = true
      /\ number_truthy (reconnectDelay (config s)) = true
      /\ number_truthy (reconnectAttempts (config s)) = true
      /\ (forall n, number_truthy n = true ->
            (o_timeout o = Some n -> timeout (config s) = n)
            /\ (o_reconnectDelay o = Some n -> reconnectDelay (config s) = n)
            /\ (o_reconnectAttempts o = Some n -> reconnectAttempts (config s) = n))
      /\ (o_reconnectAttempts o = None \/ o_reconnectAttempts o = Some (int 0)
          \/ o_reconnectAttempts o = Some NumNaN ->
          reconnectAttempts (config s) = int 5)
      /\ (forall q, (q < 0)%Q -> o_reconnectAttempts o = Some (NumFin q) ->
            forall count, count_below count (reconnectAttempts (config s)) = false)
      /\ (autoReconnect (config s) = false <-> o_autoReconnect o = Some false)
      /\ (enableWebSocket (config s) = false <-> o_enableWebSocket o = Some false)
      /\ eventListeners s = ∅ /\ activeWatchers s = ∅ /\ socket s = None
      /\ isConnected s = false /\ isConnecting s = false /\ reconnectCount s = 0
  end.
Proof.
  assert (Hor : forall v d, number_truthy d = true -> number_truthy (number_or v d) = true).
  { intros [n|] d Hd; cbn; [destruct (number_truthy n) eqn:E|]; assumption. }
  assert (Hkeep : forall v d n, number_truthy n = true -> v = Some n -> number_or v d = n).
  { intros v d n Hn ->. cbn. rewrite Hn. reflexivity. }
  assert (Hneg : forall q, (q < 0)%Q -> number_truthy (NumFin q) = true
                           /\ forall count, count_below count (NumFin q) = false).
  { intros q Hq. split.
    - cbn. destruct (Qeq_bool q 0) eqn:E; [|reflexivity].
      apply Qeq_bool_iff in E. rewrite E in Hq. destruct (Qlt_irrefl _ Hq).
    - intros count. cbn.
      assert (Hle : (q <= inject_Z (Z.of_nat count))%Q).
      { apply Qlt_le_weak, (Qlt_le_trans _ 0); [exact Hq|].
        unfold Qle. cbn. lia. }
      apply Qle_bool_iff in Hle. rewrite Hle. reflexivity. }
  unfold constructor.
  destruct (String.eqb key EmptyString) eqn:E.
  - apply String.eqb_eq in E. split; [exact E | reflexivity].
  - apply String.eqb_neq in E. cbn [config apiKey baseUrl timeout reconnectDelay
      reconnectAttempts autoReconnect enableWebSocket eventListeners activeWatchers socket
      isConnected isConnecting reconnectCount].
    split; [exact E|]. split; [reflexivity|].
    split.
    { unfold or_default. destruct (o_baseUrl o) as [b|]; [|discriminate].
      destruct (String.eqb b EmptyString) eqn:Eb; [discriminate|].
      apply String.eqb_neq. exact Eb. }
    split; [apply Hor; reflexivity|]. split; [apply Hor; reflexivity|].
    split; [apply Hor; reflexivity|].
    split.
    { intros n Hn. repeat split; intros Ho; apply Hkeep; assumption. }
    split; [intros [-> | [-> | ->]]; reflexivity|].
    split.
    { intros q Hq Ho count. destruct (Hneg q Hq) as [Ht Hc].
      rewrite (Hkeep _ _ _ Ht Ho). apply Hc. }
    split; [destruct (o_autoReconnect o) as [[|]|]; cbn; split; congruence|].
    split; [destruct (o_enableWebSocket o) as [[|]|]; cbn; split; congruence|].
    repeat split.
Qed.
